(** * FlowSight: the LSP heuristic scorer and the LSP backtester

    A shallow embedding of

      - [MLService._mock_predict]   (backend/app/services/ml_service.py)
      - [LSPBacktester]             (backend/app/ml/backtesting.py)

    Python [float]s are IEEE-754 binary64 values; they are embedded as Rocq's
    primitive floats, which are binary64 as well, so that every arithmetic
    step rounds as it does in CPython.  Python's true division raises
    [ZeroDivisionError] on a zero divisor; that is kept, through a small
    state-and-exception monad over the backtester object.  numpy's division
    does not raise, and the values that are [numpy.float64] in the code are
    marked as such. *)

From Stdlib Require Import ZArith Floats String.
From Stdlib Require Uint63.
From stdpp Require Import base option list strings gmap.

Set Warnings "-inexact-float".
Local Open Scope string_scope.

(** ** Python floats *)

Module PyFloat.
Local Open Scope float_scope.

(** Python's two-argument [min(a, b)]: [a] is kept unless [b < a]. *)
Definition min (a b : float) : float := if b <? a then b else a.

(** Python's two-argument [max(a, b)]: [a] is kept unless [b > a]. *)
Definition max (a b : float) : float := if a <? b then b else a.

(** [float(n)] for a non-negative integer below [2^63]. *)
Definition of_Z (z : Z) : float := of_uint63 (Uint63.of_Z z).

Definition is_nan (x : float) : bool := negb (x =? x).
End PyFloat.

(** ** The heuristic scorer *)

Module MLService.
Local Open Scope float_scope.

(** [features.get(key, default)] on a dict with string keys. *)
Definition get (features : gmap string float) (key : string) (dflt : float) : float :=
  default dflt (features !! key).

Definition _mock_predict (features : gmap string float) : float :=
  (* Extract features with defaults *)
  let whale_net_flow_momentum := get features "whale_net_flow_momentum" 0.0 in
  let sopr := get features "sopr" 1.0 in
  let stablecoin_ratio := get features "stablecoin_ratio" 0.5 in
  let illiquid_supply_change := get features "illiquid_supply_change" 0.0 in
  let dex_liquidity_depth := get features "dex_liquidity_depth" 1000000.0 in
  let price_volatility := get features "price_volatility" 0.02 in
  (* Initialize score *)
  let score := 0.0 in
  (* 1. Whale net flow momentum *)
  let score := score - whale_net_flow_momentum * 2.5 in
  (* 2. SOPR *)
  let score :=
    if 1.1 <? sopr then score + (sopr - 1.0) * 3.0
    else if sopr <? 0.9 then score - (1.0 - sopr) * 2.0
    else score + (sopr - 1.0) * 1.5 in
  (* 3. Stablecoin ratio *)
  let score := score - (stablecoin_ratio - 0.5) * 2.5 in
  (* 4. Illiquid supply change *)
  let score := score - illiquid_supply_change * 1.5 in
  (* 5. DEX liquidity depth *)
  let normalized_depth := PyFloat.min (dex_liquidity_depth / 10000000) 1.0 in
  let score := score + (1.0 - normalized_depth) * 2.5 in
  (* 6. Price volatility *)
  let score := score + price_volatility * 50.0 in
  (* Clamp to -10 to +10 range *)
  let score := PyFloat.max (-10.0) (PyFloat.min 10.0 score) in
  score.
End MLService.


(** ** The frames handed to the backtester *)

Module Frame.
(** A pandas [Timestamp]: nanoseconds since the epoch ([datetime64[ns]]). *)
Definition Timestamp := Z.

Definition ns_per_day : Z := 86400000000000.

(** A row of [lsp_scores]: columns ['timestamp', 'lsp_score', 'asset']. *)
Record ScoreRow := mkScore
  { s_timestamp : Timestamp; s_lsp_score : float; s_asset : string }.

(** A row of [price_data]: columns ['timestamp', 'price', 'asset']. *)
Record PriceRow := mkPrice
  { p_timestamp : Timestamp; p_price : float; p_asset : string }.

(** A row of the merged frame. *)
Record Row := mkRow
  { timestamp : Timestamp; lsp_score : float; asset : string; price : float }.

(** [pd.merge(lsp_scores, price_data, on=['timestamp', 'asset'], how='inner')]:
    one row per pair of a left and a right row with equal keys, in the order
    of the left frame, the right matches of one left row in the right
    frame's order. *)
Definition merge (lsp_scores : list ScoreRow) (price_data : list PriceRow) : list Row :=
  flat_map (λ l,
    flat_map (λ r,
      if bool_decide (s_timestamp l = p_timestamp r ∧ s_asset l = p_asset r)
      then [mkRow (s_timestamp l) (s_lsp_score l) (s_asset l) (p_price r)]
      else []) price_data) lsp_scores.

Fixpoint insert_by_timestamp (r : Row) (rows : list Row) : list Row :=
  match rows with
  | [] => [r]
  | x :: rest =>
      if (timestamp r <=? timestamp x)%Z then r :: x :: rest
      else x :: insert_by_timestamp r rest
  end.

(** [.sort_values('timestamp')], ascending.  Rows with equal timestamps keep
    their relative order here, as they do in pandas for a frame of up to 16
    rows (numpy sorts those by insertion); pandas' default sort is not
    stable, and in a longer frame it may order rows of equal timestamps
    otherwise. *)
Definition sort_values (rows : list Row) : list Row :=
  foldr insert_by_timestamp [] rows.

(** [merged.iloc[-1]] on a frame known to be non-empty. *)
Definition iloc_last (rows : list Row) : option Row := last rows.

(** [data['timestamp'].min()] and [.max()]. *)
Definition timestamp_min (rows : list Row) : Timestamp :=
  match rows with
  | [] => 0%Z
  | r :: rest => foldl (λ m x, Z.min m (timestamp x)) (timestamp r) rest
  end.

Definition timestamp_max (rows : list Row) : Timestamp :=
  match rows with
  | [] => 0%Z
  | r :: rest => foldl (λ m x, Z.max m (timestamp x)) (timestamp r) rest
  end.

(** [(end_date - start_date).days]: whole days, rounded down. *)
Definition days (end_date start_date : Timestamp) : Z :=
  ((end_date - start_date) `div` ns_per_day)%Z.
End Frame.

(** ** pandas Series of float64

    These operations never raise: numpy's division by zero yields an
    infinity or a NaN. *)

Module Series.
Local Open Scope float_scope.

(** numpy's summation of a contiguous float64 array ([pairwise_sum] of its
    add loop): fewer than 8 values are added one after the other; up to 128
    values go to eight running sums, one per position modulo 8, which are
    then added as a balanced tree, the values after the last full group of 8
    being added one after the other; a longer array is split in two near its
    middle, at a multiple of 8. *)
Definition sum_block (values : list float) : float :=
  let n := length values in
  let full := (n - n mod 8)%nat in
  let r :=
    foldl (λ r i, zip_with PrimFloat.add r (take 8 (drop (8 * i) values)))
      (take 8 values) (seq 1 (full / 8 - 1)) in
  let r' i := default 0 (r !! i) in
  let res := ((r' 0%nat + r' 1%nat) + (r' 2%nat + r' 3%nat))
             + ((r' 4%nat + r' 5%nat) + (r' 6%nat + r' 7%nat)) in
  foldl PrimFloat.add res (drop full values).

Fixpoint pairwise_sum (depth : nat) (values : list float) : float :=
  let n := length values in
  if (n <? 8)%nat then foldl PrimFloat.add 0 values
  else if (n <=? 128)%nat then sum_block values
  else
    match depth with
    | O => sum_block values              (* not reached: see [fsum] *)
    | S depth =>
        let n2 := (n / 2)%nat in
        let n2 := (n2 - n2 mod 8)%nat in
        pairwise_sum depth (take n2 values) + pairwise_sum depth (drop n2 values)
    end.

(** [values.sum()]: the reduction starts from the identity 0 and adds the
    pairwise sum.  Each split at least halves the longer part, so a depth of
    the length is never used up. *)
Definition fsum (values : list float) : float :=
  0 + pairwise_sum (length values) values.

Definition dropna (values : list float) : list float :=
  filter (λ x, negb (PyFloat.is_nan x) = true) values.

(** [s.expanding().max()]: the largest non-NaN value seen so far, NaN while
    there is none. *)
Fixpoint expanding_max_from (best : option float) (values : list float) : list float :=
  match values with
  | [] => []
  | x :: rest =>
      let best' :=
        if PyFloat.is_nan x then best
        else match best with
             | None => Some x
             | Some b => Some (if b <? x then x else b)
             end in
      default nan best' :: expanding_max_from best' rest
  end.

Definition expanding_max (values : list float) : list float :=
  expanding_max_from None values.

(** [s.min()], NaN skipped; NaN when nothing is left. *)
Definition min (values : list float) : float :=
  match dropna values with
  | [] => nan
  | x :: rest => foldl (λ m y, if y <? m then y else m) x rest
  end.

(** [s.pct_change()]: NaN in the first place, then [s[i] / s[i-1] - 1]. *)
Fixpoint pct_change_from (prev : float) (values : list float) : list float :=
  match values with
  | [] => []
  | x :: rest => (x / prev - 1) :: pct_change_from x rest
  end.

Definition pct_change (values : list float) : list float :=
  match values with
  | [] => []
  | x :: rest => nan :: pct_change_from x rest
  end.

(** [s.std()]: the sample standard deviation ([ddof=1]) by the two-pass
    formula of pandas' [nanvar] (pandas' own implementation, numpy sums);
    NaN when there are not more observations than [ddof], that is for fewer
    than two. *)
Definition std (values : list float) : float :=
  let count := Z.of_nat (length values) in
  if (count <=? 1)%Z then nan
  else
    let avg := fsum values / PyFloat.of_Z count in
    let sqr := map (λ x, (avg - x) * (avg - x)) values in
    sqrt (fsum sqr / PyFloat.of_Z (count - 1)).

(** [np.mean] of a non-empty list. *)
Definition mean (values : list float) : float :=
  fsum values / PyFloat.of_Z (Z.of_nat (length values)).
End Series.

(** ** The backtester object and the monad of its methods *)

Module Trade.
(** An entry of [self.trades]: a dict with these five keys. *)
Record t := mk
  { entry_price : float; exit_price : float; position : string;
    pnl : float; timestamp : Frame.Timestamp }.
End Trade.

Record LSPBacktester := mkBacktester
  { trading_fee : float; slippage : float;
    trades : list Trade.t; equity_curve : list float }.

(** [LSPBacktester(trading_fee, slippage)] *)
Definition __init__ (trading_fee slippage : float) : LSPBacktester :=
  mkBacktester trading_fee slippage [] [].

Inductive exn := ZeroDivisionError | IndexError.

Inductive pyresult (A : Type) := Ok (a : A) | Raise (e : exn).
Arguments Ok {A} a.
Arguments Raise {A} e.

(** A method: it reads and updates [self], and returns or raises. *)
Definition M (A : Type) : Type := LSPBacktester → pyresult A * LSPBacktester.

#[global] Instance M_ret : MRet M := λ A a self, (Ok a, self).
#[global] Instance M_bind : MBind M := λ A B k m self,
  match m self with
  | (Ok a, self') => k a self'
  | (Raise e, self') => (Raise e, self')
  end.

Definition raise {A} (e : exn) : M A := λ self, (Raise e, self).
Definition get_self : M LSPBacktester := λ self, (Ok self, self).
Definition set_trades (l : list Trade.t) : M unit :=
  λ self, (Ok (), mkBacktester (trading_fee self) (slippage self) l (equity_curve self)).
Definition set_equity_curve (l : list float) : M unit :=
  λ self, (Ok (), mkBacktester (trading_fee self) (slippage self) (trades self) l).

(** Python's [x / y] on floats. *)
Definition truediv (x y : float) : M float :=
  if (y =? 0)%float then raise ZeroDivisionError else mret (x / y)%float.

(** A float as the code holds it: a Python [float], or a [numpy.float64],
    which is what indexing a row of a frame by position ([merged.iloc[-1]])
    yields.  Both are binary64 and compute the same values; an operation
    with a [numpy.float64] operand gives a [numpy.float64], and its division
    by zero yields an infinity or a NaN instead of raising. *)
Inductive scalar := Py (x : float) | Np (x : float).

Definition value (s : scalar) : float := match s with Py x | Np x => x end.

(** Arithmetic of a scalar with Python floats: the kind is kept. *)
Definition lift (f : float → float) (s : scalar) : scalar :=
  match s with Py x => Py (f x) | Np x => Np (f x) end.

(** [x / y] for a scalar [x] and a Python float [y]. *)
Definition scalar_truediv (x : scalar) (y : float) : M scalar :=
  match x with
  | Py a => q ← truediv a y; mret (Py q)
  | Np a => mret (Np (a / y)%float)
  end.

(** [for row in rows: v = body(v, row)], [v] standing for the local variables
    the body assigns. *)
Fixpoint for_each {A V : Type} (rows : list A) (body : V → A → M V) (v : V) : M V :=
  match rows with
  | [] => mret v
  | row :: rest => v' ← body v row; for_each rest body v'
  end.

(** ** [LSPBacktester] *)

Local Open Scope Z_scope.
Local Open Scope list_scope.

(** The local variables the trading loop of [run_backtest] assigns. *)
Record locals := mkLocals
  { capital : float;
    position : Z;                             (* 0 = no position, 1 = long, -1 = short *)
    entry_price : float;
    entry_timestamp : option Frame.Timestamp }.

(** A value of the metrics dict: a float, or the int of ['total_trades']. *)
Inductive pyval := VFloat (x : float) | VInt (n : Z).

Definition _close_position (capital : float) (position : Z)
    (entry_price : float) (exit_price : scalar) (timestamp : Frame.Timestamp)
    : M scalar :=
  pnl ← (if bool_decide (position = 1) then      (* Long position *)
           q ← scalar_truediv (lift (λ x, x - entry_price)%float exit_price) entry_price;
           mret (lift (λ q, capital * q)%float q)
         else                                     (* Short position *)
           q ← scalar_truediv (lift (λ x, entry_price - x)%float exit_price) entry_price;
           mret (lift (λ q, capital * q)%float q));
  (* Account for slippage and fees *)
  self ← get_self;
  let pnl := lift (λ pnl, pnl - capital * (slippage self + trading_fee self))%float pnl in
  (* Record trade *)
  set_trades (trades self ++
    [Trade.mk entry_price (value exit_price)
       (if bool_decide (position = 1) then "long" else "short") (value pnl) timestamp]);;
  mret pnl.

(** The body of [for idx, row in merged.iterrows()].  The values of a row
    that [iterrows] yields are Python floats. *)
Definition trading_step (v : locals) (row : Frame.Row) : M locals :=
  let lsp_score := Frame.lsp_score row in
  let price := Frame.price row in
  let timestamp := Frame.timestamp row in
  v ← (if (7.0 <=? lsp_score)%float && negb (bool_decide (position v = -1)) then
         (* Close long position if exists *)
         capital' ← (if bool_decide (position v = 1) then
                       pnl ← _close_position (capital v) (position v) (entry_price v)
                               (Py price) timestamp;
                       mret (capital v + value pnl)%float
                     else mret (capital v));
         (* Open short position *)
         self ← get_self;
         mret (mkLocals (capital' * (1 - trading_fee self))%float (-1)
                        (price * (1 + slippage self))%float (Some timestamp))
       else if (lsp_score <=? -7.0)%float && negb (bool_decide (position v = 1)) then
         (* Close short position if exists *)
         capital' ← (if bool_decide (position v = -1) then
                       pnl ← _close_position (capital v) (position v) (entry_price v)
                               (Py price) timestamp;
                       mret (capital v + value pnl)%float
                     else mret (capital v));
         (* Open long position *)
         self ← get_self;
         mret (mkLocals (capital' * (1 - trading_fee self))%float 1
                        (price * (1 - slippage self))%float (Some timestamp))
       else mret v);
  (* Update equity curve *)
  current_equity ←
    (if negb (bool_decide (position v = 0)) then
       (* Calculate unrealized PnL *)
       unrealized_pnl ←
         (if bool_decide (position v = 1) then   (* Long *)
            q ← truediv (price - entry_price v)%float (entry_price v);
            mret (capital v * q)%float
          else                                    (* Short *)
            q ← truediv (entry_price v - price)%float (entry_price v);
            mret (capital v * q)%float);
       mret (capital v + unrealized_pnl)%float
     else mret (capital v));
  self ← get_self;
  set_equity_curve (equity_curve self ++ [current_equity]);;
  mret v.

(** [self.equity_curve[-1] = capital] *)
Definition set_last_equity (capital : float) : M unit :=
  self ← get_self;
  match equity_curve self with
  | [] => raise IndexError
  | _ => set_equity_curve (<[pred (length (equity_curve self)) := capital]> (equity_curve self))
  end.

(** The block "Close any open position at the end"; it yields the final
    capital, a [numpy.float64] when a position was closed, since the final
    price is one. *)
Definition close_open_position (merged : list Frame.Row) (v : locals) : M scalar :=
  if negb (bool_decide (position v = 0)) then
    match Frame.iloc_last merged with
    | None => raise IndexError
    | Some final_row =>
        let final_price := Np (Frame.price final_row) in
        let final_timestamp := Frame.timestamp final_row in
        pnl ← _close_position (capital v) (position v) (entry_price v)
                final_price final_timestamp;
        let capital := lift (λ pnl, capital v + pnl)%float pnl in
        set_last_equity (value capital);;
        mret capital
    end
  else mret (Py (capital v)).

Section Backtest.
(** [x ** y] on floats, Python's or numpy's, is the C library's [pow], which
    is not correctly rounded and so is not determined by IEEE-754: it is a
    parameter.  (On Python floats CPython raises [OverflowError] when [pow]
    overflows and yields a complex number for a negative base with a
    fractional exponent; neither is modelled.) *)
Variable float_pow : float → float → float.

(** The annualized return, from the capital and the period in years. *)
Definition annualized (initial_capital : float) (final_capital : scalar)
    (years : float) : M scalar :=
  if (0 <? years)%float then
    ratio ← scalar_truediv final_capital initial_capital;
    exponent ← truediv 1 years;
    mret (lift (λ ratio, float_pow ratio exponent - 1)%float ratio)
  else mret (Py 0.0%float).

(** [downside_returns.std() if len(downside_returns) > 0 else 0.0001] *)
Definition downside_std_of (equity_series : list float) : float :=
  let returns := Series.dropna (Series.pct_change equity_series) in
  let downside_returns := filter (λ r, (r <? 0)%float = true) returns in
  if (0 <? Z.of_nat (length downside_returns))%Z
  then Series.std downside_returns else 0.0001%float.

Definition _calculate_metrics (initial_capital : float) (final_capital : scalar)
    (data : list Frame.Row) : M (gmap string pyval) :=
  (* Total return *)
  total_return ←
    scalar_truediv (lift (λ x, x - initial_capital)%float final_capital)
      initial_capital;
  (* Calculate time period *)
  let start_date := Frame.timestamp_min data in
  let end_date := Frame.timestamp_max data in
  years ← truediv (PyFloat.of_Z (Frame.days end_date start_date)) 365.25;
  (* Annualized return *)
  annualized_return ← annualized initial_capital final_capital years;
  self ← get_self;
  (* Maximum Drawdown (MDD) *)
  let equity_series := equity_curve self in
  let running_max := Series.expanding_max equity_series in
  let drawdown := zip_with (λ e m, (e - m) / m)%float equity_series running_max in
  let max_drawdown := abs (Series.min drawdown) in
  (* Sortino Ratio (downside deviation only) *)
  let downside_std := downside_std_of equity_series in
  let sortino_ratio :=
    if (0 <? downside_std)%float
    then (value annualized_return / downside_std)%float
    else 0.0%float in
  (* Win rate and expectancy *)
  let win_rate :=
    match trades self with
    | [] => 0.0%float
    | _ =>
        let profitable_trades := filter (λ t, (0 <? Trade.pnl t)%float = true) (trades self) in
        (PyFloat.of_Z (Z.of_nat (length profitable_trades))
         / PyFloat.of_Z (Z.of_nat (length (trades self))))%float
    end in
  let avg_profit :=
    match trades self with
    | [] => 0.0%float
    | _ => Series.mean (map Trade.pnl (trades self))
    end in
  let directional_accuracy := 0.0%float in
  mret (<["total_return" := VFloat (value total_return)]>
        (<["annualized_return" := VFloat (value annualized_return)]>
        (<["max_drawdown" := VFloat max_drawdown]>
        (<["sortino_ratio" := VFloat sortino_ratio]>
        (<["win_rate" := VFloat win_rate]>
        (<["avg_profit_per_trade" := VFloat avg_profit]>
        (<["total_trades" := VInt (Z.of_nat (length (trades self)))]>
        (<["directional_accuracy" := VFloat directional_accuracy]> ∅)))))))).

(** The part of [run_backtest] from "Initialize tracking variables" to the
    end of the loop. *)
Definition trading_loop (merged : list Frame.Row) (initial_capital : float) : M locals :=
  let v := mkLocals initial_capital 0 0.0%float None in
  set_equity_curve [initial_capital];;
  set_trades [];;
  for_each merged trading_step v.

Definition run_backtest (lsp_scores : list Frame.ScoreRow)
    (price_data : list Frame.PriceRow) (initial_capital : float)
    : M (gmap string pyval) :=
  (* Merge dataframes on timestamp and asset *)
  let merged := Frame.sort_values (Frame.merge lsp_scores price_data) in
  match merged with
  | [] => mret ∅                       (* logger.error(...); return {} *)
  | _ =>
      v ← trading_loop merged initial_capital;
      capital ← close_open_position merged v;
      _calculate_metrics initial_capital capital merged
  end.
End Backtest.

(** ** Predicates of the statements *)

(** A method keeps the configuration when it leaves [trading_fee] and
    [slippage] as they were, whether it returns or raises. *)
Definition keeps_config {A} (m : M A) : Prop :=
  ∀ self, trading_fee (m self).2 = trading_fee self
          ∧ slippage (m self).2 = slippage self.

(** An open position has an entry price that a division accepts. *)
Definition priced (v : locals) : Prop :=
  position v ≠ 0 → (entry_price v =? 0)%float = false.

(** Opening a position at this row, short or long, gives a non-zero entry
    price. *)
Definition tradable (slip : float) (row : Frame.Row) : Prop :=
  (Frame.price row * (1 + slip) =? 0)%float = false
  ∧ (Frame.price row * (1 - slip) =? 0)%float = false.

(** The divisions of the metrics by the initial capital go through when it
    is not zero, and also when the final capital is a [numpy.float64]. *)
Definition divides (ic : float) (fc : scalar) : Prop :=
  (ic =? 0)%float = false ∨ ∃ x, fc = Np x.

(** ** Sample series *)

Module Sample.
Import Frame.

Definition day (d : Z) : Timestamp := d * ns_per_day.

(** Sell signal, then buy signal. *)
Definition scores_flip : list ScoreRow :=
  [mkScore (day 0) 8.0 "BTC"; mkScore (day 1) (-8.0) "BTC"].

(** Buy signal, then no signal. *)
Definition scores_dip : list ScoreRow :=
  [mkScore (day 0) (-8.0) "BTC"; mkScore (day 1) 0.0 "BTC"].

Definition prices_btc : list PriceRow :=
  [mkPrice (day 0) 100 "BTC"; mkPrice (day 1) 90 "BTC"].

(** Prices of another asset: nothing to join with the scores above. *)
Definition prices_eth : list PriceRow :=
  [mkPrice (day 0) 100 "ETH"; mkPrice (day 1) 90 "ETH"].

(** Sell signal, then no signal. *)
Definition scores_sell : list ScoreRow :=
  [mkScore (day 0) 8.0 "BTC"; mkScore (day 1) 0.0 "BTC"].

(** A price of zero on the first day. *)
Definition prices_from_zero : list PriceRow :=
  [mkPrice (day 0) 0 "BTC"; mkPrice (day 1) 90 "BTC"].
End Sample.

(** ** The rest of [MLService]: loading the model and [predict_lsp] *)

Module Numpy.
Local Open Scope float_scope.

(** [np.maximum] and [np.minimum]: a NaN operand gives NaN. *)
Definition maximum (a b : float) : float :=
  if (b <=? a) || PyFloat.is_nan a then a else b.

Definition minimum (a b : float) : float :=
  if (a <=? b) || PyFloat.is_nan a then a else b.

(** [np.clip(x, lo, hi)] *)
Definition clip (x lo hi : float) : float := minimum (maximum x lo) hi.
End Numpy.

Module Predictor.
Import MLService.
Local Open Scope float_scope.

(** A loaded Keras model, as [predict_lsp] uses it: from the input array to
    [model.predict(feature_array, verbose=0)[0][0]], or [None] when that
    raises. *)
Definition Model : Type := list float → option float.

(** What [_load_model] finds: the module's [TENSORFLOW_AVAILABLE], and the
    model file ([None]: no file at the path; [Some None]: loading it raises;
    [Some (Some m)]: it loads as [m]). *)
Record Env := mkEnv
  { TENSORFLOW_AVAILABLE : bool; model_file : option (option Model) }.

(** The two fields of an [MLService] object. *)
Record t := mk { model : option Model; model_loaded : bool }.

Definition _load_model (env : Env) (self : t) : t :=
  if negb (TENSORFLOW_AVAILABLE env) then
    mk (model self) true                       (* "Using mock ML model for MVP" *)
  else
    match model_file env with
    | Some (Some m) => mk (Some m) true
    | Some None => mk (model self) false       (* except Exception *)
    | None => mk (model self) false            (* model file not found *)
    end.

(** [MLService()] *)
Definition __init__ (env : Env) : t := _load_model env (mk None false).

(** The array handed to the model: the six features, in this order. *)
Definition feature_array (features : gmap string float) : list float :=
  [ get features "whale_net_flow_momentum" 0.0;
    get features "sopr" 1.0;
    get features "stablecoin_ratio" 0.5;
    get features "illiquid_supply_change" 0.0;
    get features "dex_liquidity_depth" 1000000.0;
    get features "price_volatility" 0.02 ].

Definition predict_lsp (self : t) (features : gmap string float) : float :=
  match model self with
  | None => _mock_predict features             (* self.model is None *)
  | Some m =>
      if negb (model_loaded self) then _mock_predict features
      else
        match m (feature_array features) with
        | Some prediction => Numpy.clip prediction (-10.0) 10.0
        | None => _mock_predict features       (* except Exception *)
        end
  end.
End Predictor.

(** ** [_interpret_score] of the LSP endpoints *)

Module Endpoint.
Local Open Scope float_scope.

Definition _interpret_score (score : float) : string :=
  if 7 <=? score then
    "High Liquidity Shock Risk - Significant downward pressure expected"
  else if 3 <=? score then
    "Moderate Risk - Some downward pressure possible"
  else if -3 <=? score then
    "Neutral - Balanced market conditions"
  else if -7 <=? score then
    "Low Risk - Accumulation phase, upward pressure possible"
  else
    "Very Low Risk - Strong accumulation, bullish conditions".
End Endpoint.

(** ** More predicates of the statements *)

(** The six keys the scorer reads. *)
Definition feature_names : list string :=
  [ "whale_net_flow_momentum"; "sopr"; "stablecoin_ratio";
    "illiquid_supply_change"; "dex_liquidity_depth"; "price_volatility" ].

(** A row whose score is neither an entry nor an exit signal. *)
Definition no_signal (row : Frame.Row) : Prop :=
  (7.0 <=? Frame.lsp_score row)%float = false
  ∧ (Frame.lsp_score row <=? -7.0)%float = false.

(** Adjacent trades are of opposite directions. *)
Fixpoint alternating (l : list Trade.t) : Prop :=
  match l with
  | t1 :: (t2 :: _) as rest => Trade.position t1 ≠ Trade.position t2 ∧ alternating rest
  | _ => True
  end.

(** The direction with which [_close_position] records a position. *)
Definition direction (position : Z) : string :=
  if bool_decide (position = 1) then "long" else "short".

(** * Properties *)

(** ** Facts on binary64 comparisons *)

Section FloatFacts.
Local Open Scope float_scope.

Lemma ltb_leb (x y : float) : (x <? y) = true → (x <=? y) = true.
Proof.
  rewrite FloatAxioms.ltb_spec, FloatAxioms.leb_spec. unfold SFltb, SFleb.
  destruct (SFcompare _ _) as [[]|]; congruence.
Qed.

Lemma ltb_zero_neq (y : float) : (0 <? y) = true → (y =? 0) = false.
Proof.
  rewrite FloatAxioms.ltb_spec, FloatAxioms.eqb_spec. unfold SFltb, SFeqb.
  change (Prim2SF 0) with (S754_zero false).
  destruct (Prim2SF y) as [s|s| |s m e]; simpl; try congruence;
    destruct s; congruence.
Qed.

Lemma ltb_nan_r (x : float) : (x <? nan) = false.
Proof.
  rewrite FloatAxioms.ltb_spec. unfold SFltb.
  change (Prim2SF nan) with S754_nan.
  destruct (Prim2SF x); reflexivity.
Qed.
End FloatFacts.

(** ** The heuristic scorer *)

Section Scorer.
Local Open Scope float_scope.
Import MLService.

Lemma get_empty key dflt : get ∅ key dflt = dflt.
Proof. unfold get. by rewrite lookup_empty. Qed.

(** The clamp of [_mock_predict], on any pre-clamp score (NaN included:
    [min(10.0, nan)] is [10.0]). *)
Lemma clamp_bounds (score : float) :
  let r := PyFloat.max (-10.0) (PyFloat.min 10.0 score) in
  (-10 <=? r) = true ∧ (r <=? 10) = true.
Proof.
  unfold PyFloat.max, PyFloat.min.
  destruct (score <? 10) eqn:Hhi.
  - destruct (-10 <? score) eqn:Hlo.
    + split; by apply ltb_leb.
    + by split.
  - by split.
Qed.

(** C4. On the empty feature mapping every feature takes its baseline and
    the heuristic returns exactly 3.25: nothing from momentum, the neutral
    SOPR branch, the stablecoin ratio and the illiquid supply, 2.25 from
    the depth term and 1.0 from volatility. *)
Theorem mock_predict_baseline :
  _mock_predict ∅ = 3.25
  ∧ get ∅ "whale_net_flow_momentum" 0.0 * 2.5 = 0
  ∧ (1.1 <? get ∅ "sopr" 1.0) = false
  ∧ (get ∅ "sopr" 1.0 <? 0.9) = false
  ∧ (get ∅ "sopr" 1.0 - 1.0) * 1.5 = 0
  ∧ (get ∅ "stablecoin_ratio" 0.5 - 0.5) * 2.5 = 0
  ∧ get ∅ "illiquid_supply_change" 0.0 * 1.5 = 0
  ∧ PyFloat.min (get ∅ "dex_liquidity_depth" 1000000.0 / 10000000) 1.0 = 0.1
  ∧ (1.0 - 0.1) * 2.5 = 2.25
  ∧ get ∅ "price_volatility" 0.02 * 50.0 = 1.0
  ∧ 0 - 0 + 0 - 0 - 0 + 2.25 + 1.0 = 3.25.
Proof.
  unfold _mock_predict. rewrite !get_empty.
  repeat split; vm_compute; reflexivity.
Qed.

(** C5. Whatever the feature mapping holds, the heuristic's output lies in
    the closed interval from -10 to 10. *)
Theorem mock_predict_in_range (features : gmap string float) :
  (-10 <=? _mock_predict features) = true
  ∧ (_mock_predict features <=? 10) = true.
Proof. unfold _mock_predict. apply clamp_bounds. Qed.

(** C6. With [sopr] exactly 1.1 and the other features at their baseline,
    neither [sopr > 1.1] nor [sopr < 0.9] holds, so the neutral branch adds
    [(1.1 - 1.0) * 1.5] (0.15 up to binary64 rounding) to the baseline
    score, and not the [(1.1 - 1.0) * 3.0] of the high branch. *)
Theorem mock_predict_sopr_boundary :
  let features : gmap string float := {[ "sopr" := 1.1 ]} in
  let neutral := (1.1 - 1.0) * 1.5 in
  let high := (1.1 - 1.0) * 3.0 in
  get features "sopr" 1.0 = 1.1
  ∧ (1.1 <? get features "sopr" 1.0) = false
  ∧ (get features "sopr" 1.0 <? 0.9) = false
  ∧ _mock_predict features = 0 - 0 + neutral - 0 - 0 + 2.25 + 1.0
  ∧ (_mock_predict features =? 0 - 0 + high - 0 - 0 + 2.25 + 1.0) = false
  ∧ (abs (neutral - 0.15) <? 0x1p-50) = true
  ∧ (abs (high - 0.3) <? 0x1p-50) = true
  ∧ (abs (_mock_predict features - (_mock_predict ∅ + 0.15)) <? 0x1p-50) = true.
Proof. repeat split; vm_compute; reflexivity. Qed.
End Scorer.

(** ** The monad of the methods *)

Section MonadFacts.
Context {A B : Type}.

Lemma bind_unfold (m : M A) (k : A → M B) (self : LSPBacktester) :
  (m ≫= k) self =
    match m self with
    | (Ok a, self') => k a self'
    | (Raise e, self') => (Raise e, self')
    end.
Proof. reflexivity. Qed.

Lemma bind_Ok (m : M A) (k : A → M B) self a self' :
  m self = (Ok a, self') → (m ≫= k) self = k a self'.
Proof. intros H. by rewrite bind_unfold, H. Qed.

Lemma bind_Raise (m : M A) (k : A → M B) self e self' :
  m self = (Raise e, self') → (m ≫= k) self = (Raise e, self').
Proof. intros H. by rewrite bind_unfold, H. Qed.

Lemma bind_inv_Ok (m : M A) (k : A → M B) self b self'' :
  (m ≫= k) self = (Ok b, self'') →
  ∃ a self', m self = (Ok a, self') ∧ k a self' = (Ok b, self'').
Proof.
  rewrite bind_unfold. destruct (m self) as [[a|e] self']; [eauto|discriminate].
Qed.
End MonadFacts.

Create HintDb config discriminated.

Section KeepsConfig.
Context {A B : Type}.

Lemma keeps_ret (a : A) : keeps_config (mret a).
Proof. by intros self. Qed.

Lemma keeps_raise (e : exn) : keeps_config (raise (A := A) e).
Proof. by intros self. Qed.

Lemma keeps_bind (m : M A) (k : A → M B) :
  keeps_config m → (∀ a, keeps_config (k a)) → keeps_config (m ≫= k).
Proof.
  intros Hm Hk self. rewrite bind_unfold.
  destruct (Hm self) as [Hf Hs].
  destruct (m self) as [[a|e] self']; simpl in *; [|done].
  destruct (Hk a self') as [Hf' Hs']. split; congruence.
Qed.

Lemma keeps_if (b : bool) (m1 m2 : M A) :
  keeps_config m1 → keeps_config m2 → keeps_config (if b then m1 else m2).
Proof. by destruct b. Qed.
End KeepsConfig.

Lemma keeps_get_self : keeps_config get_self.
Proof. by intros self. Qed.

Lemma keeps_set_trades l : keeps_config (set_trades l).
Proof. by intros self. Qed.

Lemma keeps_set_equity_curve l : keeps_config (set_equity_curve l).
Proof. by intros self. Qed.

Lemma keeps_truediv x y : keeps_config (truediv x y).
Proof. unfold truediv. apply keeps_if; [apply keeps_raise | apply keeps_ret]. Qed.

Lemma keeps_scalar_truediv x y : keeps_config (scalar_truediv x y).
Proof.
  destruct x; simpl; [|apply keeps_ret].
  apply keeps_bind; [apply keeps_truediv|intros ?; apply keeps_ret].
Qed.

#[local] Hint Resolve keeps_ret keeps_raise keeps_get_self keeps_set_trades
  keeps_set_equity_curve keeps_truediv keeps_scalar_truediv : config.
#[local] Hint Extern 2 (keeps_config (_ ≫= _)) => apply keeps_bind; [|intros ?] : config.
#[local] Hint Extern 2 (keeps_config (if _ then _ else _)) => apply keeps_if : config.

Lemma keeps_close_position c p ep xp ts : keeps_config (_close_position c p ep xp ts).
Proof. unfold _close_position. auto 10 with config. Qed.

#[local] Hint Resolve keeps_close_position : config.

Lemma keeps_trading_step v row : keeps_config (trading_step v row).
Proof. unfold trading_step. auto 12 with config. Qed.

Lemma keeps_for_each {A V} (body : V → A → M V) rows v :
  (∀ v row, keeps_config (body v row)) → keeps_config (for_each rows body v).
Proof.
  intros Hbody. revert v.
  induction rows as [|row rest IH]; intros v; simpl; auto with config.
Qed.

Lemma keeps_set_last_equity c : keeps_config (set_last_equity c).
Proof.
  intros self. unfold set_last_equity. rewrite bind_unfold. simpl.
  by destruct (equity_curve self).
Qed.

Lemma keeps_close_open_position merged v : keeps_config (close_open_position merged v).
Proof.
  unfold close_open_position. apply keeps_if; [|auto with config].
  destruct (Frame.iloc_last merged); auto 8 using keeps_set_last_equity with config.
Qed.

Lemma keeps_calculate_metrics pow ic fc data :
  keeps_config (_calculate_metrics pow ic fc data).
Proof. unfold _calculate_metrics, annualized. auto 12 with config. Qed.

Lemma keeps_trading_loop merged ic : keeps_config (trading_loop merged ic).
Proof.
  unfold trading_loop. auto 8 using keeps_for_each, keeps_trading_step with config.
Qed.

Lemma keeps_run_backtest pow scores prices ic :
  keeps_config (run_backtest pow scores prices ic).
Proof.
  unfold run_backtest.
  destruct (Frame.sort_values _) as [|row rest]; [apply keeps_ret|].
  auto 8 using keeps_trading_loop, keeps_close_open_position,
    keeps_calculate_metrics with config.
Qed.

(** ** Runs on one instance *)

Section Runs.
Variable float_pow : float → float → float.

(** The loop starts from a state in which only the configuration of
    [self] is left: both lists are assigned before the first row. *)
Lemma trading_loop_resets merged ic (self : LSPBacktester) :
  trading_loop merged ic self =
    for_each merged trading_step (mkLocals ic 0 0.0%float None)
      (mkBacktester (trading_fee self) (slippage self) [] [ic]).
Proof. reflexivity. Qed.

Lemma trading_loop_config_only merged ic (self self' : LSPBacktester) :
  trading_fee self = trading_fee self' → slippage self = slippage self' →
  trading_loop merged ic self = trading_loop merged ic self'.
Proof. intros Hf Hs. rewrite !trading_loop_resets. by rewrite Hf, Hs. Qed.

Lemma run_backtest_config_only scores prices ic (self self' : LSPBacktester) :
  Frame.sort_values (Frame.merge scores prices) ≠ [] →
  trading_fee self = trading_fee self' → slippage self = slippage self' →
  run_backtest float_pow scores prices ic self
  = run_backtest float_pow scores prices ic self'.
Proof.
  intros Hne Hf Hs. unfold run_backtest.
  destruct (Frame.sort_values _) as [|row rest]; [done|].
  rewrite !(bind_unfold (trading_loop _ _)).
  by rewrite (trading_loop_config_only _ _ self self').
Qed.

Lemma run_backtest_empty scores prices ic (self : LSPBacktester) :
  Frame.sort_values (Frame.merge scores prices) = [] →
  run_backtest float_pow scores prices ic self = (Ok ∅, self).
Proof. intros Hempty. unfold run_backtest. by rewrite Hempty. Qed.

(** C9. Two runs in succession on one instance, with the same series and
    the same initial capital, give the same outcome (the same metrics
    report, or the same error), the same trade list and the same equity
    curve: the second run does not see what the first one left. *)
Theorem run_backtest_twice scores prices ic (self : LSPBacktester) :
  let first := run_backtest float_pow scores prices ic self in
  let second := run_backtest float_pow scores prices ic first.2 in
  second.1 = first.1
  ∧ trades second.2 = trades first.2
  ∧ equity_curve second.2 = equity_curve first.2.
Proof.
  intros first second.
  destruct (Frame.sort_values (Frame.merge scores prices)) as [|row rest] eqn:Hm.
  - subst second first. by rewrite !run_backtest_empty.
  - assert (second = first) as ->; [|done].
    subst second first.
    destruct (keeps_run_backtest float_pow scores prices ic self) as [Hf Hs].
    apply run_backtest_config_only; [by rewrite Hm|done|done].
Qed.
End Runs.


(** ** One row of the trading loop *)

(** [_close_position] raises only on a Python exit price, when the entry
    price is zero; otherwise it records the trade and returns the PnL, of the
    kind of the exit price. *)
Lemma close_position_run c p ep (xp : scalar) ts (self : LSPBacktester) :
  _close_position c p ep xp ts self =
    if match xp with Py _ => (ep =? 0)%float | Np _ => false end
    then (Raise ZeroDivisionError, self)
    else
      let pnl :=
        ((if bool_decide (p = 1)%Z
          then c * ((value xp - ep) / ep) else c * ((ep - value xp) / ep))
         - c * (slippage self + trading_fee self))%float in
      (Ok (lift (λ _, pnl) xp),
       mkBacktester (trading_fee self) (slippage self)
         (trades self ++
            [Trade.mk ep (value xp)
               (if bool_decide (p = 1) then "long" else "short") pnl ts])
         (equity_curve self)).
Proof.
  unfold _close_position, scalar_truediv, truediv.
  destruct xp as [x|x], (bool_decide (p = 1)), (ep =? 0)%float eqn:E; simpl;
    rewrite ?bind_unfold; rewrite ?E; simpl; rewrite ?bind_unfold; reflexivity.
Qed.

Ltac run_step H :=
  repeat (first
    [ rewrite bind_unfold in H
    | rewrite close_position_run in H
    | progress (unfold mret, M_ret, raise in H)
    | match type of H with
      | context [if ?b then _ else _] => destruct b eqn:?
      | context [match ?x with _ => _ end] => destruct x eqn:?
      end ];
    simpl in H).

Ltac run_goal :=
  repeat (first
    [ rewrite bind_unfold
    | rewrite close_position_run
    | progress (unfold mret, M_ret, raise)
    | match goal with
      | |- context [if ?b then _ else _] => destruct b eqn:?
      end ];
    simpl).

Lemma trading_step_Ok v row (self : LSPBacktester) v' self' :
  trading_step v row self = (Ok v', self') →
  (∃ e, equity_curve self' = equity_curve self ++ [e]) ∧ priced v'.
Proof.
  unfold trading_step, truediv. intros H.
  run_step H; simplify_eq/=; (split; [eexists; reflexivity|]);
    unfold priced; simpl; intros Hp; try done.
  apply negb_false_iff, bool_decide_eq_true in Heqb1. done.
Qed.

Lemma trading_step_total v row (self : LSPBacktester) :
  priced v → tradable (slippage self) row →
  ∃ v' self', trading_step v row self = (Ok v', self').
Proof.
  unfold trading_step, truediv. intros Hv [Hshort Hlong].
  run_goal; try congruence; try (eexists _, _; reflexivity).
  all: exfalso.
  all: assert (position v ≠ 0) as Hne
    by (repeat case_bool_decide; simplify_eq/=; lia).
  all: apply Hv in Hne; congruence.
Qed.

(** ** The whole loop *)

Lemma for_each_Ok rows : ∀ v (self : LSPBacktester) v' self',
  for_each rows trading_step v self = (Ok v', self') →
  (∃ l, equity_curve self' = equity_curve self ++ l ∧ length l = length rows)
  ∧ (priced v → priced v').
Proof.
  induction rows as [|row rest IH]; intros v self v' self' H; simpl in H.
  - unfold mret, M_ret in H. simplify_eq. split; [|done].
    exists []. by rewrite app_nil_r.
  - apply bind_inv_Ok in H as (v1 & self1 & Hstep & Hrest).
    apply trading_step_Ok in Hstep as [[e He] Hv1].
    apply IH in Hrest as [(l & Hl & Hlen) Hv'].
    split; [|auto].
    exists (e :: l). rewrite Hl, He, <- app_assoc. simpl. by rewrite Hlen.
Qed.

Lemma for_each_total rows : ∀ v (self : LSPBacktester),
  priced v → Forall (tradable (slippage self)) rows →
  ∃ v' self', for_each rows trading_step v self = (Ok v', self').
Proof.
  induction rows as [|row rest IH]; intros v self Hv Hrows; simpl.
  - by eexists _, _.
  - apply Forall_cons in Hrows as [Hrow Hrest].
    destruct (trading_step_total v row self Hv Hrow) as (v1 & self1 & Hstep).
    rewrite (bind_Ok _ _ _ _ _ Hstep).
    apply IH.
    + by apply trading_step_Ok in Hstep as [_ ?].
    + destruct (keeps_trading_step v row self) as [_ Hs].
      rewrite Hstep in Hs. simpl in Hs. by rewrite Hs.
Qed.

Lemma sort_values_length rows : length (Frame.sort_values rows) = length rows.
Proof.
  assert (∀ r l, length (Frame.insert_by_timestamp r l) = S (length l)) as Hins.
  { intros r l. induction l as [|x l IH]; simpl; [done|].
    destruct (_ <=? _); simpl; by rewrite ?IH. }
  induction rows as [|r rows IH]; simpl; [done|].
  by rewrite Hins, IH.
Qed.

Lemma trading_loop_Ok merged ic (self : LSPBacktester) v self1 :
  trading_loop merged ic self = (Ok v, self1) →
  length (equity_curve self1) = S (length merged)
  ∧ equity_curve self1 !! 0%nat = Some ic
  ∧ (merged ≠ [] → priced v).
Proof.
  rewrite trading_loop_resets. intros H.
  destruct merged as [|row rest].
  - simpl in H. unfold mret, M_ret in H. by simplify_eq.
  - apply for_each_Ok in H as H'. destruct H' as [(l & Hl & Hlen) _].
    simpl in Hl. rewrite Hl. simpl. rewrite Hlen. do 2 (split; [done|]).
    intros _. simpl in H.
    apply bind_inv_Ok in H as (v1 & s1 & Hstep & Hrest).
    apply trading_step_Ok in Hstep as [_ Hv1].
    apply for_each_Ok in Hrest as [_ Hv]. auto.
Qed.

Lemma trading_loop_total merged ic (self : LSPBacktester) :
  Forall (tradable (slippage self)) merged →
  ∃ v self1, trading_loop merged ic self = (Ok v, self1).
Proof.
  intros Hrows. rewrite trading_loop_resets.
  apply for_each_total; [|done]. by intros Hp.
Qed.

(** ** The forced close at the end of the series *)

Lemma close_open_position_flat merged v (self : LSPBacktester) :
  position v = 0 → close_open_position merged v self = (Ok (Py (capital v)), self).
Proof.
  intros Hp. unfold close_open_position. by rewrite Hp.
Qed.

Lemma close_open_position_open merged v (self : LSPBacktester) final_row :
  position v ≠ 0 → last merged = Some final_row →
  equity_curve self ≠ [] →
  let pnl :=
    ((if bool_decide (position v = 1)%Z
      then capital v * ((Frame.price final_row - entry_price v) / entry_price v)
      else capital v * ((entry_price v - Frame.price final_row) / entry_price v))
     - capital v * (slippage self + trading_fee self))%float in
  close_open_position merged v self =
    (Ok (Np (capital v + pnl)%float),
     mkBacktester (trading_fee self) (slippage self)
       (trades self ++
          [Trade.mk (entry_price v) (Frame.price final_row)
             (if bool_decide (position v = 1) then "long" else "short")
             pnl (Frame.timestamp final_row)])
       (<[pred (length (equity_curve self)) := (capital v + pnl)%float]>
          (equity_curve self))).
Proof.
  intros Hp Hlast Heq pnl. unfold close_open_position, Frame.iloc_last.
  rewrite Hlast. rewrite bool_decide_eq_false_2 by done. simpl.
  rewrite bind_unfold, close_position_run. simpl.
  rewrite bind_unfold. unfold set_last_equity. rewrite bind_unfold. simpl.
  by destruct (equity_curve self).
Qed.

(** ** The metrics *)

Section Metrics.
Variable float_pow : float → float → float.

Lemma scalar_truediv_run (ic : float) (fc : scalar) f (self : LSPBacktester) :
  divides ic fc →
  scalar_truediv (lift f fc) ic self = (Ok (lift (λ x, f x / ic)%float fc), self).
Proof.
  intros [Hic|[x ->]]; [|done].
  destruct fc as [x|x]; simpl; [|done].
  unfold truediv. rewrite bind_unfold, Hic. done.
Qed.

Lemma annualized_run ic fc years (self : LSPBacktester) :
  divides ic fc →
  ∃ ann, annualized float_pow ic fc years self = (Ok ann, self).
Proof.
  intros Hdiv. unfold annualized.
  destruct (0 <? years)%float eqn:Hy; [|by eexists].
  rewrite bind_unfold.
  pose proof (scalar_truediv_run ic fc (λ x, x) self Hdiv) as Hq.
  assert (lift (λ x, x) fc = fc) as Hid by (by destruct fc).
  rewrite Hid in Hq. rewrite Hq.
  rewrite bind_unfold. unfold truediv. rewrite (ltb_zero_neq _ Hy). by eexists.
Qed.

(** What [_calculate_metrics] returns when its divisions go through: the
    dict, key by key. *)
Lemma calculate_metrics_run ic fc data (self : LSPBacktester) :
  divides ic fc →
  ∃ m ann,
    _calculate_metrics float_pow ic fc data self = (Ok m, self)
    ∧ m !! "total_return" = Some (VFloat ((value fc - ic) / ic))
    ∧ m !! "annualized_return" = Some (VFloat ann)
    ∧ m !! "sortino_ratio" =
        Some (VFloat (let downside_std := downside_std_of (equity_curve self) in
                      if (0 <? downside_std)%float then (ann / downside_std)%float
                      else 0%float))
    ∧ m !! "total_trades" = Some (VInt (Z.of_nat (length (trades self)))).
Proof.
  intros Hdiv. unfold _calculate_metrics.
  rewrite bind_unfold, (scalar_truediv_run _ _ _ _ Hdiv).
  rewrite bind_unfold. unfold truediv at 1. simpl.
  rewrite bind_unfold.
  destruct (annualized_run ic fc
    (PyFloat.of_Z (Frame.days (Frame.timestamp_max data) (Frame.timestamp_min data))
     / 365.25)%float self Hdiv) as [ann Hann].
  rewrite Hann. simpl. rewrite bind_unfold. simpl.
  eexists _, (value ann). split; [reflexivity|].
  repeat split.
  all: try by repeat (rewrite lookup_insert_ne by done); rewrite lookup_insert_eq.
  rewrite lookup_insert_eq. by destruct fc.
Qed.

(** A Python final capital (no position was closed at the end) and a zero
    initial capital: the first division raises. *)
Lemma calculate_metrics_zero_capital ic fc data (self : LSPBacktester) :
  (ic =? 0)%float = true →
  _calculate_metrics float_pow ic (Py fc) data self = (Raise ZeroDivisionError, self).
Proof.
  intros Hic. unfold _calculate_metrics.
  rewrite bind_unfold. simpl. unfold truediv at 1.
  rewrite bind_unfold. by rewrite Hic.
Qed.

Lemma divides_dec ic fc :
  divides ic fc ∨ ((ic =? 0)%float = true ∧ ∃ x, fc = Py x).
Proof.
  destruct fc as [x|x].
  - destruct (ic =? 0)%float eqn:Hic; [right; eauto|by left; left].
  - left. right. eauto.
Qed.

Lemma calculate_metrics_state ic fc data (self : LSPBacktester) :
  (_calculate_metrics float_pow ic fc data self).2 = self.
Proof.
  destruct (divides_dec ic fc) as [Hdiv|[Hic [x ->]]].
  - destruct (calculate_metrics_run ic fc data self Hdiv) as (m & ann & -> & _).
    done.
  - by rewrite calculate_metrics_zero_capital.
Qed.

(** A report that [_calculate_metrics] returns, key by key. *)
Lemma calculate_metrics_Ok_inv ic fc data (self self' : LSPBacktester) m :
  _calculate_metrics float_pow ic fc data self = (Ok m, self') →
  self' = self
  ∧ ∃ ann,
      m !! "total_return" = Some (VFloat ((value fc - ic) / ic))
      ∧ m !! "annualized_return" = Some (VFloat ann)
      ∧ m !! "sortino_ratio" =
          Some (VFloat (let downside_std := downside_std_of (equity_curve self) in
                        if (0 <? downside_std)%float then (ann / downside_std)%float
                        else 0%float))
      ∧ m !! "total_trades" = Some (VInt (Z.of_nat (length (trades self)))).
Proof.
  intros Hm.
  destruct (divides_dec ic fc) as [Hdiv|[Hic [x ->]]].
  - destruct (calculate_metrics_run ic fc data self Hdiv) as (m' & ann & Hm' & Hrest).
    rewrite Hm in Hm'. simplify_eq. split; [done|]. by exists ann.
  - by rewrite calculate_metrics_zero_capital in Hm.
Qed.
End Metrics.

(** ** A whole run *)

Section RunFacts.
Variable float_pow : float → float → float.

Lemma run_backtest_steps scores prices ic (self : LSPBacktester) v self1 cap self2 :
  let merged := Frame.sort_values (Frame.merge scores prices) in
  merged ≠ [] →
  trading_loop merged ic self = (Ok v, self1) →
  close_open_position merged v self1 = (Ok cap, self2) →
  run_backtest float_pow scores prices ic self
  = _calculate_metrics float_pow ic cap merged self2.
Proof.
  intros merged Hne Hloop Hclose. unfold run_backtest. fold merged.
  destruct merged as [|row rest] eqn:Hm; [done|].
  rewrite (bind_Ok _ _ _ _ _ Hloop). by rewrite (bind_Ok _ _ _ _ _ Hclose).
Qed.

(** What the forced close does to the state the loop left. *)
Lemma close_after_loop merged ic (self : LSPBacktester) v self1 :
  merged ≠ [] →
  trading_loop merged ic self = (Ok v, self1) →
  ∃ cap self2,
    close_open_position merged v self1 = (Ok cap, self2)
    ∧ (position v = 0 → cap = Py (capital v) ∧ self2 = self1)
    ∧ (position v ≠ 0 → ∃ final_row pnl,
         last merged = Some final_row
         ∧ cap = Np (capital v + pnl)%float
         ∧ trades self2 =
             trades self1 ++
               [Trade.mk (entry_price v) (Frame.price final_row)
                  (if bool_decide (position v = 1) then "long" else "short")
                  pnl (Frame.timestamp final_row)]
         ∧ equity_curve self2 = <[length merged := value cap]> (equity_curve self1)).
Proof.
  intros Hne Hloop.
  apply trading_loop_Ok in Hloop as (Hlen & _ & _).
  destruct (decide (position v = 0)) as [Hp|Hp].
  - eexists _, _. split; [by apply close_open_position_flat|]. by split.
  - destruct (last merged) as [final_row|] eqn:Hlast;
      [|by apply last_None in Hlast].
    assert (equity_curve self1 ≠ []) as Heq by (by destruct (equity_curve self1)).
    eexists _, _. split; [by apply close_open_position_open|].
    split; [done|]. intros _. eexists final_row, _.
    split; [done|]. split; [reflexivity|]. split; [reflexivity|].
    simpl. by rewrite Hlen.
Qed.

(** C8, as the code has it.  A run on a non-empty joined dataset of [n]
    rows whose trading loop completes leaves an equity curve of exactly
    [n + 1] entries, the seed first and then one entry per row; a position
    still open after the last row is closed against the last row's price and
    timestamp, and the resulting capital replaces the last entry of the
    curve, which keeps its length and its first [n] entries.  The loop does
    complete whenever no row yields a zero entry price (the one way a
    division can fail in it). *)
Theorem equity_curve_shape scores prices ic (self : LSPBacktester) :
  let merged := Frame.sort_values (Frame.merge scores prices) in
  let n := length merged in
  let loop := trading_loop merged ic self in
  let final := (run_backtest float_pow scores prices ic self).2 in
  merged ≠ [] →
  n = length (Frame.merge scores prices)
  ∧ (Forall (tradable (slippage self)) merged → ∃ v, loop.1 = Ok v)
  ∧ ∀ v, loop.1 = Ok v →
      length (equity_curve loop.2) = S n
      ∧ equity_curve loop.2 !! 0%nat = Some ic
      ∧ length (equity_curve final) = S n
      ∧ take n (equity_curve final) = take n (equity_curve loop.2)
      ∧ (position v = 0 →
           equity_curve final = equity_curve loop.2
           ∧ trades final = trades loop.2)
      ∧ (position v ≠ 0 → ∃ final_row pnl,
           last merged = Some final_row
           ∧ trades final =
               trades loop.2 ++
                 [Trade.mk (entry_price v) (Frame.price final_row)
                    (if bool_decide (position v = 1) then "long" else "short")
                    pnl (Frame.timestamp final_row)]
           ∧ equity_curve final
             = <[n := (capital v + pnl)%float]> (equity_curve loop.2)
           ∧ equity_curve final !! n = Some (capital v + pnl)%float).
Proof.
  intros merged n loop final Hne.
  split; [apply sort_values_length|].
  split.
  { intros Hrows. subst loop.
    destruct (trading_loop_total merged ic self Hrows) as (v & self1 & ->).
    by exists v. }
  intros v Hv. subst loop.
  destruct (trading_loop merged ic self) as [r self1] eqn:Hloop.
  simpl in Hv. subst r. simpl.
  destruct (close_after_loop _ _ _ _ _ Hne Hloop)
    as (cap & self2 & Hclose & Hflat & Hopen).
  assert (final = self2) as ->.
  { subst final. rewrite (run_backtest_steps _ _ _ _ _ _ _ _ Hne Hloop Hclose).
    apply calculate_metrics_state. }
  apply trading_loop_Ok in Hloop as (Hlen & Hseed & _).
  split; [done|]. split; [done|].
  destruct (decide (position v = 0)) as [Hp|Hp].
  - destruct (Hflat Hp) as [_ ->]. by repeat split.
  - destruct (Hopen Hp) as (final_row & pnl & Hlast & -> & Htr & Heq).
    fold n in Heq. rewrite Heq.
    split; [by rewrite length_insert|].
    split; [by apply take_insert_ge|].
    split; [done|]. intros _. exists final_row, pnl.
    repeat split; try done.
    apply list_lookup_insert_eq. lia.
Qed.

(** A run that returns on a non-empty join went through the loop, the forced
    close and the metrics. *)
Lemma run_backtest_Ok_inv scores prices ic (self : LSPBacktester) m :
  let merged := Frame.sort_values (Frame.merge scores prices) in
  merged ≠ [] →
  (run_backtest float_pow scores prices ic self).1 = Ok m →
  ∃ v self1 cap self2,
    trading_loop merged ic self = (Ok v, self1)
    ∧ close_open_position merged v self1 = (Ok cap, self2)
    ∧ _calculate_metrics float_pow ic cap merged self2 = (Ok m, self2)
    ∧ (run_backtest float_pow scores prices ic self).2 = self2.
Proof.
  intros merged Hne Hrun.
  destruct (trading_loop merged ic self) as [[v|e] self1] eqn:Hloop.
  2:{ exfalso. revert Hrun. unfold run_backtest. fold merged.
      destruct merged; [done|]. by rewrite (bind_Raise _ _ _ _ _ Hloop). }
  destruct (close_after_loop _ _ _ _ _ Hne Hloop) as (cap & self2 & Hclose & _).
  rewrite (run_backtest_steps _ _ _ _ _ _ _ _ Hne Hloop Hclose) in Hrun |- *.
  fold merged in Hrun |- *.
  exists v, self1, cap, self2. do 2 (split; [done|]).
  pose proof (calculate_metrics_state float_pow ic cap merged self2) as Hstate.
  destruct (_calculate_metrics float_pow ic cap merged self2) as [r s'].
  simpl in Hrun, Hstate. by subst.
Qed.

(** A run on a non-empty join, with entry prices that are not zero and an
    initial capital that is not zero, returns the metrics. *)
Lemma run_backtest_returns scores prices ic (self : LSPBacktester) :
  let merged := Frame.sort_values (Frame.merge scores prices) in
  merged ≠ [] → Forall (tradable (slippage self)) merged →
  (ic =? 0)%float = false →
  ∃ m, (run_backtest float_pow scores prices ic self).1 = Ok m.
Proof.
  intros merged Hne Hrows Hic.
  destruct (trading_loop_total merged ic self Hrows) as (v & self1 & Hloop).
  destruct (close_after_loop _ _ _ _ _ Hne Hloop) as (cap & self2 & Hclose & _).
  rewrite (run_backtest_steps _ _ _ _ _ _ _ _ Hne Hloop Hclose). fold merged.
  destruct (calculate_metrics_run float_pow ic cap merged self2 (or_introl Hic))
    as (m & ann & -> & _).
  by exists m.
Qed.

(** C1, as the code has it.  Nothing checks the configuration: whatever the
    trading fee, the slippage and the initial capital are (negative and zero
    values included), a run on a non-empty join whose entry prices are not
    zero simulates every row, so that the equity curve holds the seed and one
    entry per row, and with an initial capital other than zero it returns a
    metrics report whose trade count is that of the recorded trades. *)
Theorem no_configuration_check (fee slip ic : float) tr eq scores prices :
  let self := mkBacktester fee slip tr eq in
  let merged := Frame.sort_values (Frame.merge scores prices) in
  let run := run_backtest float_pow scores prices ic self in
  merged ≠ [] → Forall (tradable slip) merged →
  length (equity_curve run.2) = S (length merged)
  ∧ ((ic =? 0)%float = false →
       ∃ m, run.1 = Ok m
            ∧ m !! "total_trades" = Some (VInt (Z.of_nat (length (trades run.2))))
            ∧ m !! "total_return" ≠ None).
Proof.
  intros self merged run Hne Hrows.
  destruct (trading_loop_total merged ic self Hrows) as (v & self1 & Hloop).
  destruct (close_after_loop _ _ _ _ _ Hne Hloop)
    as (cap & self2 & Hclose & Hflat & Hopen).
  assert (run = _calculate_metrics float_pow ic cap merged self2) as Hrun
    by apply (run_backtest_steps _ _ _ _ _ _ _ _ Hne Hloop Hclose).
  apply trading_loop_Ok in Hloop as (Hlen & _ & _).
  split.
  - rewrite Hrun, calculate_metrics_state.
    destruct (decide (position v = 0)) as [Hp|Hp].
    + by destruct (Hflat Hp) as [_ ->].
    + destruct (Hopen Hp) as (final_row & pnl & _ & _ & _ & ->).
      by rewrite length_insert.
  - intros Hic.
    destruct (calculate_metrics_run float_pow ic cap merged self2 (or_introl Hic))
      as (m & ann & Hm & Htotal & _ & _ & Hcount).
    exists m. rewrite Hrun, Hm. simpl.
    split; [done|]. split; [done|]. by rewrite Htotal.
Qed.

(** C2. When the inner join of the two series is empty, [run_backtest]
    returns, without raising, the empty dict: a result with no key at all,
    which no run on a non-empty join returns, since such a run, when it
    returns, returns a dict that has the metrics' keys. *)
Theorem empty_join_no_result scores prices ic (self : LSPBacktester) :
  Frame.merge scores prices = [] →
  (run_backtest float_pow scores prices ic self).1 = Ok ∅
  ∧ (∀ key, (∅ : gmap string pyval) !! key = None)
  ∧ (∀ scores' prices' ic' (self' : LSPBacktester) m,
       Frame.merge scores' prices' ≠ [] →
       (run_backtest float_pow scores' prices' ic' self').1 = Ok m →
       m ≠ ∅ ∧ m !! "total_return" ≠ None ∧ m !! "total_trades" ≠ None).
Proof.
  intros Hempty. split; [|split].
  - rewrite run_backtest_empty; [done|]. by rewrite Hempty.
  - intros key. apply lookup_empty.
  - intros scores' prices' ic' self' m Hne Hrun.
    assert (Frame.sort_values (Frame.merge scores' prices') ≠ []) as Hne'.
    { intros Hnil. apply Hne, length_zero_iff_nil.
      by rewrite <- sort_values_length, Hnil. }
    apply (run_backtest_Ok_inv _ _ _ _ _ Hne') in Hrun
      as (v & self1 & cap & self2 & _ & _ & Hm & _).
    apply calculate_metrics_Ok_inv in Hm
      as (_ & ann & Htotal & _ & _ & Hcount).
    split; [|by rewrite Htotal, Hcount].
    intros ->. by rewrite lookup_empty in Htotal.
Qed.

(** C10. A run whose join is empty returns before the two lists are
    assigned: the instance is left exactly as it was, so after an earlier
    run on the same instance its trade list and its equity curve are still
    those of that earlier run. *)
Theorem empty_join_keeps_previous_run
    scores0 prices0 ic0 scores prices ic (self : LSPBacktester) :
  Frame.merge scores prices = [] →
  let previous := (run_backtest float_pow scores0 prices0 ic0 self).2 in
  let run := run_backtest float_pow scores prices ic previous in
  run.1 = Ok ∅
  ∧ run.2 = previous
  ∧ trades run.2 = trades previous
  ∧ equity_curve run.2 = equity_curve previous.
Proof.
  intros Hempty previous run. subst run.
  rewrite run_backtest_empty; [done|]. by rewrite Hempty.
Qed.

(** C3, as the code has it.  On a non-empty joined dataset, whenever the
    run returns a report (it does when no row yields a zero entry price and
    the initial capital is not zero), the reported [sortino_ratio] is
    [annualized_return / downside_std] when [downside_std] is greater than
    zero, and [0.0] otherwise; [downside_std] is the sample standard
    deviation of the strictly negative percentage changes of the equity
    curve, and 0.0001 when there is none, in which case the quotient is
    reported.  A single negative change has no sample standard deviation
    (pandas gives NaN), and the reported ratio is then [0.0]. *)
Theorem sortino_ratio_guarded scores prices ic (self : LSPBacktester) :
  let merged := Frame.sort_values (Frame.merge scores prices) in
  let run := run_backtest float_pow scores prices ic self in
  let returns := Series.dropna (Series.pct_change (equity_curve run.2)) in
  let downside_returns := filter (λ r, (r <? 0)%float = true) returns in
  let downside_std :=
    if 0 <? Z.of_nat (length downside_returns)
    then Series.std downside_returns else 0.0001%float in
  merged ≠ [] →
  (Forall (tradable (slippage self)) merged → (ic =? 0)%float = false →
   ∃ m, run.1 = Ok m)
  ∧ ∀ m, run.1 = Ok m →
      ∃ annualized_return,
        m !! "annualized_return" = Some (VFloat annualized_return)
        ∧ m !! "sortino_ratio" =
            Some (VFloat (if (0 <? downside_std)%float
                          then (annualized_return / downside_std)%float
                          else 0%float))
        ∧ (downside_returns = [] →
             downside_std = 0.0001%float
             ∧ m !! "sortino_ratio" = Some (VFloat (annualized_return / 0.0001)))
        ∧ (length downside_returns = 1%nat →
             PyFloat.is_nan downside_std = true
             ∧ m !! "sortino_ratio" = Some (VFloat 0)).
Proof.
  intros merged run returns downside_returns downside_std Hne.
  split; [by apply run_backtest_returns|].
  intros m Hrun.
  apply (run_backtest_Ok_inv _ _ _ _ _ Hne) in Hrun
    as (v & self1 & cap & self2 & _ & _ & Hm & Hfinal).
  apply calculate_metrics_Ok_inv in Hm as (_ & ann & _ & Hann & Hsortino & _).
  rewrite <- Hfinal in Hsortino.
  assert (m !! "sortino_ratio" =
            Some (VFloat (if (0 <? downside_std)%float
                          then (ann / downside_std)%float else 0%float)))
    as Hs by exact Hsortino.
  exists ann. split; [done|]. split; [done|]. split.
  - intros Hnone. assert (downside_std = 0.0001%float) as Hstd.
    { subst downside_std. by rewrite Hnone. }
    split; [done|]. rewrite Hs. clearbody downside_std. by subst downside_std.
  - intros Hone. assert (downside_std = nan) as Hstd.
    { subst downside_std. unfold Series.std. by rewrite Hone. }
    rewrite Hs. clearbody downside_std. by subst downside_std.
Qed.

(** C7. The join of two rows, score 8.0 at price 100 and then score -8.0
    at price 90, with no fee, no slippage and an initial capital of 100000:
    the first row opens a short at 100; the second row closes it at 90 for
    a PnL of 100000 * (100 - 90) / 100 = 10000 and opens a long at 90; the
    forced close exits the long at 90 for a PnL of 0.  The run reports 2
    trades and a total return of 0.10, on a final capital of 110000. *)
Theorem short_then_long_scenario scores prices t1 a1 t2 a2 tr eq :
  let row1 := Frame.mkRow t1 8.0 a1 100 in
  let row2 := Frame.mkRow t2 (-8.0) a2 90 in
  let self := mkBacktester 0 0 tr eq in
  let run := run_backtest float_pow scores prices 100000 self in
  let short := Trade.mk 100 90 "short" 10000 t2 in
  let long := Trade.mk 90 90 "long" 0 t2 in
  Frame.sort_values (Frame.merge scores prices) = [row1; row2] →
  trading_step (mkLocals 100000 0 0 None) row1 (mkBacktester 0 0 [] [100000%float])
  = (Ok (mkLocals 100000 (-1) 100 (Some t1)),
     mkBacktester 0 0 [] [100000%float; 100000%float])
  ∧ trading_step (mkLocals 100000 (-1) 100 (Some t1)) row2
      (mkBacktester 0 0 [] [100000%float; 100000%float])
    = (Ok (mkLocals 110000 1 90 (Some t2)),
       mkBacktester 0 0 [short] [100000%float; 100000%float; 110000%float])
  ∧ (100000 * ((100 - 90) / 100) = 10000)%float
  ∧ close_open_position [row1; row2] (mkLocals 110000 1 90 (Some t2))
      (mkBacktester 0 0 [short] [100000%float; 100000%float; 110000%float])
    = (Ok (Np 110000%float),
       mkBacktester 0 0 [short; long] [100000%float; 100000%float; 110000%float])
  ∧ trades run.2 = [short; long]
  ∧ equity_curve run.2 = [100000%float; 100000%float; 110000%float]
  ∧ ∃ m, run.1 = Ok m
         ∧ m !! "total_trades" = Some (VInt 2)
         ∧ m !! "total_return" = Some (VFloat 0.1).
Proof.
  intros row1 row2 self run short long Hmerged.
  assert (trading_loop [row1; row2] 100000 self
          = (Ok (mkLocals 110000 1 90 (Some t2)),
             mkBacktester 0 0 [short] [100000%float; 100000%float; 110000%float]))
    as Hloop by reflexivity.
  assert (close_open_position [row1; row2] (mkLocals 110000 1 90 (Some t2))
            (mkBacktester 0 0 [short] [100000%float; 100000%float; 110000%float])
          = (Ok (Np 110000%float),
             mkBacktester 0 0 [short; long]
               [100000%float; 100000%float; 110000%float]))
    as Hclose by reflexivity.
  assert (Frame.sort_values (Frame.merge scores prices) ≠ []) as Hne
    by by rewrite Hmerged.
  rewrite <- Hmerged in Hloop, Hclose.
  pose proof (run_backtest_steps _ _ _ _ _ _ _ _ Hne Hloop Hclose) as Hrun.
  fold run in Hrun. rewrite Hmerged in Hrun, Hclose.
  destruct (calculate_metrics_run float_pow 100000 (Np 110000) [row1; row2]
              (mkBacktester 0 0 [short; long]
                 [100000%float; 100000%float; 110000%float]) (or_introl eq_refl))
    as (m & ann & Hm & Htotal & _ & _ & Hcount).
  rewrite Hm in Hrun.
  do 4 (split; [reflexivity || done|]).
  rewrite Hrun. do 2 (split; [done|]).
  exists m. by repeat split.
Qed.
End RunFacts.

(** ** The theorems at concrete series *)

Lemma div_nan_r (x : float) : PyFloat.is_nan (x / nan) = true.
Proof.
  unfold PyFloat.is_nan. rewrite FloatAxioms.eqb_spec, FloatAxioms.div_spec.
  change (Prim2SF nan) with S754_nan.
  unfold SF64div, SFdiv. destruct (Prim2SF x); reflexivity.
Qed.

Module Examples.
Import Frame Sample.

(** C1 fails as stated: runs configured with a negative trading fee, with a
    negative slippage and with a negative initial capital are not rejected;
    each is simulated over both rows, records its trades and returns a
    metrics report. *)
Lemma negative_configuration_counterexample :
  ((-0.001 <? 0)%float = true
   ∧ (-0.0005 <? 0)%float = true
   ∧ (-100000 <=? 0)%float = true)
  ∧ ∀ float_pow,
      let ran (fee slip ic : float) :=
        let run := run_backtest float_pow scores_flip prices_btc ic (__init__ fee slip) in
        length (trades run.2) = 2%nat
        ∧ length (equity_curve run.2) = 3%nat
        ∧ ∃ m, run.1 = Ok m ∧ m !! "total_trades" = Some (VInt 2) in
      ran (-0.001)%float 0.0005%float 100000%float
      ∧ ran 0.001%float (-0.0005)%float 100000%float
      ∧ ran 0.001%float 0.0005%float (-100000)%float.
Proof.
  split; [by repeat split|]. intros float_pow ran. subst ran.
  repeat split; try (by vm_compute).
  all: eexists; split; [vm_compute; reflexivity|by vm_compute].
Qed.

Lemma no_configuration_check_witness :
  let merged := sort_values (merge scores_flip prices_btc) in
  (-0.001 <? 0)%float = true
  ∧ merged ≠ []
  ∧ Forall (tradable (-0.0005)) merged
  ∧ ∀ float_pow,
      let run := run_backtest float_pow scores_flip prices_btc (-100000)
                   (mkBacktester (-0.001) (-0.0005) [] []) in
      length (equity_curve run.2) = 3%nat.
Proof.
  intros merged. split; [done|].
  assert (merged ≠ []) as Hne by done.
  assert (Forall (tradable (-0.0005)) merged) as Hrows by (by repeat constructor).
  do 2 (split; [done|]). intros float_pow.
  exact (proj1 (no_configuration_check float_pow (-0.001) (-0.0005) (-100000)
                  [] [] scores_flip prices_btc Hne Hrows)).
Defined.

Lemma empty_join_no_result_witness :
  merge scores_flip prices_eth = []
  ∧ ∀ float_pow,
      (run_backtest float_pow scores_flip prices_eth 100000 (__init__ 0.001 0.0005)).1
      = Ok ∅.
Proof.
  assert (merge scores_flip prices_eth = []) as Hempty by reflexivity.
  split; [done|]. intros float_pow.
  exact (proj1 (empty_join_no_result float_pow scores_flip prices_eth 100000
                  (__init__ 0.001 0.0005) Hempty)).
Defined.

(** C3 fails as stated: here the only negative change of the equity curve is
    the last one, the downside sample has one element and its sample
    standard deviation is NaN; the quotient is then NaN, while the reported
    [sortino_ratio] is [0.0]. *)
Lemma sortino_single_downside_counterexample :
  sort_values (merge scores_dip prices_btc) ≠ []
  ∧ ∀ float_pow,
      let run := run_backtest float_pow scores_dip prices_btc 100000 (__init__ 0 0) in
      let returns := Series.dropna (Series.pct_change (equity_curve run.2)) in
      let downside_returns := filter (λ r, (r <? 0)%float = true) returns in
      equity_curve run.2 = [100000; 100000; 90000]%float
      ∧ length downside_returns = 1%nat
      ∧ ∃ m annualized_return,
          run.1 = Ok m
          ∧ m !! "annualized_return" = Some (VFloat annualized_return)
          ∧ m !! "sortino_ratio" = Some (VFloat 0)
          ∧ PyFloat.is_nan (annualized_return / Series.std downside_returns) = true
          ∧ PyFloat.is_nan 0 = false.
Proof.
  split; [done|]. intros float_pow run returns downside_returns.
  split; [by vm_compute|]. split; [by vm_compute|].
  eexists _, _. split; [vm_compute; reflexivity|].
  split; [vm_compute; reflexivity|].
  split; [vm_compute; reflexivity|].
  split; [|reflexivity].
  replace (Series.std downside_returns) with nan by (by vm_compute).
  apply div_nan_r.
Qed.

Lemma sortino_ratio_guarded_witness :
  sort_values (merge scores_dip prices_btc) ≠ []
  ∧ ∀ float_pow,
      let run := run_backtest float_pow scores_dip prices_btc 100000 (__init__ 0 0) in
      ∃ m, run.1 = Ok m ∧ m !! "sortino_ratio" = Some (VFloat 0).
Proof.
  assert (sort_values (merge scores_dip prices_btc) ≠ []) as Hne by done.
  split; [done|]. intros float_pow run.
  assert (∃ m, run.1 = Ok m) as [m Hrun] by (eexists; vm_compute; reflexivity).
  exists m. split; [done|].
  destruct (sortino_ratio_guarded float_pow scores_dip prices_btc 100000
              (__init__ 0 0) Hne) as [_ Hreport].
  destruct (Hreport m Hrun) as (ann & _ & _ & _ & Hone).
  apply Hone. by vm_compute.
Defined.

Lemma short_then_long_witness :
  sort_values (merge scores_flip prices_btc)
  = [mkRow (day 0) 8.0 "BTC" 100; mkRow (day 1) (-8.0) "BTC" 90]
  ∧ ∀ float_pow,
      let run := run_backtest float_pow scores_flip prices_btc 100000 (__init__ 0 0) in
      length (trades run.2) = 2%nat
      ∧ ∃ m, run.1 = Ok m
             ∧ m !! "total_trades" = Some (VInt 2)
             ∧ m !! "total_return" = Some (VFloat 0.1).
Proof.
  assert (sort_values (merge scores_flip prices_btc)
          = [mkRow (day 0) 8.0 "BTC" 100; mkRow (day 1) (-8.0) "BTC" 90])
    as Hmerged by reflexivity.
  split; [done|]. intros float_pow run.
  destruct (short_then_long_scenario float_pow scores_flip prices_btc
              (day 0) "BTC" (day 1) "BTC" [] [] Hmerged)
    as (_ & _ & _ & _ & Htrades & _ & Hm).
  split; [exact (f_equal length Htrades)|exact Hm].
Defined.

(** C8 fails as stated: the first row is a sell signal at a price of zero,
    the entry price of the short is zero and marking it to market divides by
    it; the run stops with [ZeroDivisionError] before that row's entry is
    appended, and the curve of this join of 2 rows is left with 1 entry. *)
Lemma zero_entry_price_counterexample :
  length (sort_values (merge scores_sell prices_from_zero)) = 2%nat
  ∧ ∀ float_pow,
      let run := run_backtest float_pow scores_sell prices_from_zero 100000
                   (__init__ 0.001 0.0005) in
      run.1 = Raise ZeroDivisionError
      ∧ equity_curve run.2 = [100000%float]
      ∧ length (equity_curve run.2) = 1%nat
      ∧ trades run.2 = [].
Proof.
  split; [reflexivity|]. intros float_pow run. by repeat split.
Qed.

Lemma equity_curve_shape_witness :
  let merged := sort_values (merge scores_dip prices_btc) in
  merged ≠ []
  ∧ Forall (tradable 0.0005) merged
  ∧ ∀ float_pow,
      let loop := trading_loop merged 100000 (__init__ 0.001 0.0005) in
      let final := (run_backtest float_pow scores_dip prices_btc 100000
                      (__init__ 0.001 0.0005)).2 in
      ∃ v, loop.1 = Ok v
           ∧ position v = 1
           ∧ length (equity_curve loop.2) = 3%nat
           ∧ length (equity_curve final) = 3%nat
           ∧ take 2 (equity_curve final) = take 2 (equity_curve loop.2)
           ∧ ∃ final_row pnl,
               last merged = Some final_row
               ∧ trades final =
                   trades loop.2 ++
                     [Trade.mk (entry_price v) (price final_row) "long" pnl
                        (timestamp final_row)]
               ∧ equity_curve final !! 2%nat = Some (capital v + pnl)%float.
Proof.
  intros merged.
  assert (merged ≠ []) as Hne by done.
  assert (Forall (tradable 0.0005) merged) as Hrows by (by repeat constructor).
  do 2 (split; [done|]). intros float_pow loop final.
  destruct (equity_curve_shape float_pow scores_dip prices_btc 100000
              (__init__ 0.001 0.0005) Hne) as (_ & Htotal & Hshape).
  destruct (Htotal Hrows) as [v Hv].
  destruct (Hshape v Hv) as (Hlen1 & _ & Hlen2 & Htake & _ & Hopen).
  assert (position v = 1) as Hpos.
  { vm_compute in Hv. by injection Hv as <-. }
  destruct Hopen as (final_row & pnl & Hlast & Htrades & _ & Hlookup);
    [by rewrite Hpos|].
  rewrite Hpos in Htrades. simpl in Htrades.
  exists v. do 5 (split; [done|]). by exists final_row, pnl.
Defined.

Lemma empty_join_keeps_previous_run_witness :
  merge scores_flip prices_eth = []
  ∧ ∀ float_pow,
      let previous :=
        (run_backtest float_pow scores_flip prices_btc 100000 (__init__ 0 0)).2 in
      let run := run_backtest float_pow scores_flip prices_eth 100000 previous in
      run.1 = Ok ∅
      ∧ length (trades run.2) = 2%nat
      ∧ equity_curve run.2 = [100000; 100000; 110000]%float.
Proof.
  assert (merge scores_flip prices_eth = []) as Hempty by reflexivity.
  split; [done|]. intros float_pow previous run.
  destruct (empty_join_keeps_previous_run float_pow scores_flip prices_btc 100000
              scores_flip prices_eth 100000 (__init__ 0 0) Hempty)
    as (Hres & _ & Htrades & Hequity).
  fold previous in Hres, Htrades, Hequity. fold run in Hres, Htrades, Hequity.
  split; [done|]. rewrite Htrades, Hequity. by vm_compute.
Defined.
End Examples.

(** * Further properties *)

(** ** NaN in binary64 arithmetic *)

Section NaNFacts.
Local Open Scope float_scope.

Lemma is_nan_spec (x : float) : PyFloat.is_nan x = true ↔ Prim2SF x = S754_nan.
Proof.
  unfold PyFloat.is_nan. rewrite FloatAxioms.eqb_spec. unfold SFeqb.
  destruct (Prim2SF x) as [s|s| |s m e]; simpl.
  - split; discriminate.
  - destruct s; split; discriminate.
  - done.
  - rewrite Z.compare_refl, Pos.compare_cont_refl.
    destruct s; split; discriminate.
Qed.

Lemma is_nan_ltb_l (x y : float) : PyFloat.is_nan x = true → (x <? y) = false.
Proof.
  rewrite is_nan_spec, FloatAxioms.ltb_spec. intros ->. reflexivity.
Qed.

Lemma is_nan_ltb_r (x y : float) : PyFloat.is_nan y = true → (x <? y) = false.
Proof.
  rewrite is_nan_spec, FloatAxioms.ltb_spec. intros ->. unfold SFltb.
  by destruct (Prim2SF x).
Qed.

Lemma is_nan_leb_l (x y : float) : PyFloat.is_nan x = true → (x <=? y) = false.
Proof.
  rewrite is_nan_spec, FloatAxioms.leb_spec. intros ->. reflexivity.
Qed.

Lemma is_nan_leb_r (x y : float) : PyFloat.is_nan y = true → (x <=? y) = false.
Proof.
  rewrite is_nan_spec, FloatAxioms.leb_spec. intros ->. unfold SFleb.
  by destruct (Prim2SF x).
Qed.

Lemma is_nan_add_l x y : PyFloat.is_nan x = true → PyFloat.is_nan (x + y) = true.
Proof. rewrite !is_nan_spec, FloatAxioms.add_spec. by intros ->. Qed.

Lemma is_nan_add_r x y : PyFloat.is_nan y = true → PyFloat.is_nan (x + y) = true.
Proof.
  rewrite !is_nan_spec, FloatAxioms.add_spec. intros ->.
  unfold SF64add, SFadd. by destruct (Prim2SF x).
Qed.

Lemma is_nan_sub_l x y : PyFloat.is_nan x = true → PyFloat.is_nan (x - y) = true.
Proof. rewrite !is_nan_spec, FloatAxioms.sub_spec. by intros ->. Qed.

Lemma is_nan_sub_r x y : PyFloat.is_nan y = true → PyFloat.is_nan (x - y) = true.
Proof.
  rewrite !is_nan_spec, FloatAxioms.sub_spec. intros ->.
  unfold SF64sub, SFsub. by destruct (Prim2SF x).
Qed.

Lemma is_nan_mul_l x y : PyFloat.is_nan x = true → PyFloat.is_nan (x * y) = true.
Proof. rewrite !is_nan_spec, FloatAxioms.mul_spec. by intros ->. Qed.

Lemma is_nan_div_l x y : PyFloat.is_nan x = true → PyFloat.is_nan (x / y) = true.
Proof. rewrite !is_nan_spec, FloatAxioms.div_spec. by intros ->. Qed.
End NaNFacts.

Create HintDb nan discriminated.
#[local] Hint Resolve is_nan_add_l is_nan_add_r is_nan_sub_l is_nan_sub_r
  is_nan_mul_l is_nan_div_l : nan.

(** ** The scorer, with and without a model *)

Section Predictor.
Import MLService Predictor.
Local Open Scope float_scope.

Lemma clamp_nan (score : float) :
  PyFloat.is_nan score = true →
  PyFloat.max (-10.0) (PyFloat.min 10.0 score) = 10.
Proof.
  intros Hnan. unfold PyFloat.min. by rewrite (is_nan_ltb_l _ _ Hnan).
Qed.

Lemma clip_spec (p : float) :
  Numpy.clip p (-10.0) 10.0 =
    if PyFloat.is_nan p then p
    else if -10 <=? p then (if p <=? 10 then p else 10) else -10.
Proof.
  unfold Numpy.clip, Numpy.maximum, Numpy.minimum.
  destruct (PyFloat.is_nan p) eqn:Hnan.
  - rewrite orb_true_r. by rewrite Hnan, orb_true_r.
  - rewrite orb_false_r. destruct (-10 <=? p) eqn:Hlo.
    + by rewrite Hnan, orb_false_r.
    + reflexivity.
Qed.
End Predictor.

Section PredictLsp.
Import MLService Predictor.
Local Open Scope float_scope.

(** X1. Without a usable model (TensorFlow missing, no model file, or a
    file that fails to load) a fresh service answers every request with the
    heuristic, so its score lies between -10 and 10. *)
Theorem predict_lsp_without_model env (features : gmap string float) :
  TENSORFLOW_AVAILABLE env = false
  ∨ model_file env = None
  ∨ model_file env = Some None →
  predict_lsp (__init__ env) features = _mock_predict features
  ∧ (-10 <=? predict_lsp (__init__ env) features) = true
  ∧ (predict_lsp (__init__ env) features <=? 10) = true.
Proof.
  intros Henv.
  assert (predict_lsp (__init__ env) features = _mock_predict features) as ->.
  { unfold predict_lsp, __init__, _load_model.
    destruct (TENSORFLOW_AVAILABLE env); simpl; [|done].
    destruct Henv as [?|[->| ->]]; done. }
  split; [done|]. unfold _mock_predict. apply clamp_bounds.
Qed.

(** X2. Whatever the service holds, [predict_lsp] returns a score between
    -10 and 10 or a NaN, and it returns a NaN exactly when the loaded model
    was used and its prediction was a NaN: [np.clip] does not clamp NaN. *)
Theorem predict_lsp_range_or_nan (self : Predictor.t) (features : gmap string float) :
  let r := predict_lsp self features in
  (PyFloat.is_nan r = false → (-10 <=? r) = true ∧ (r <=? 10) = true)
  ∧ (PyFloat.is_nan r = true ↔
       ∃ m p, model self = Some m ∧ model_loaded self = true
              ∧ m (feature_array features) = Some p
              ∧ PyFloat.is_nan p = true).
Proof.
  assert (PyFloat.is_nan (_mock_predict features) = false) as Hmock.
  { destruct (PyFloat.is_nan (_mock_predict features)) eqn:Hn; [|done].
    assert ((-10 <=? _mock_predict features) = true) as Hlo
      by (unfold _mock_predict; apply clamp_bounds).
    by rewrite (is_nan_leb_r _ _ Hn) in Hlo. }
  assert ((-10 <=? _mock_predict features) = true
          ∧ (_mock_predict features <=? 10) = true) as Hrange
    by (unfold _mock_predict; apply clamp_bounds).
  unfold predict_lsp. simpl.
  destruct (model self) as [m|]; simpl.
  2:{ split; [done|]. rewrite Hmock. split; [done|]. by intros (?&?&?&_). }
  destruct (model_loaded self); simpl.
  2:{ split; [done|]. rewrite Hmock. split; [done|]. by intros (?&?&_&?&_). }
  destruct (m (feature_array features)) as [p|] eqn:Hp.
  2:{ split; [done|]. rewrite Hmock. split; [done|]. by intros (?&?&?&_&?&_); simplify_eq. }
  rewrite clip_spec.
  destruct (PyFloat.is_nan p) eqn:Hnan.
  - split; [by rewrite Hnan|]. rewrite Hnan. split; [|done].
    intros _. by exists m, p.
  - assert (∀ q, PyFloat.is_nan
              (if -10 <=? p then if p <=? 10 then p else 10 else -10) = q →
              q = false) as Hq.
    { intros q <-. by destruct (-10 <=? p), (p <=? 10). }
    split.
    + intros _. destruct (-10 <=? p) eqn:Hlo; [|done].
      by destruct (p <=? 10) eqn:Hhi.
    + split.
      * intros Hr. by apply Hq in Hr.
      * intros (m' & p' & ? & _ & ? & Hn'). simplify_eq. congruence.
Qed.
End PredictLsp.

(** ** The order of binary64 *)

Ltac cmp_cases :=
  repeat match goal with
  | |- context [Z.compare ?a ?b] => destruct (Z.compare_spec a b)
  | H : context [Z.compare ?a ?b] |- _ => destruct (Z.compare_spec a b)
  | |- context [Pos.compare_cont Eq ?a ?b] =>
      change (Pos.compare_cont Eq a b) with (Pos.compare a b);
      destruct (Pos.compare_spec a b)
  | H : context [Pos.compare_cont Eq ?a ?b] |- _ =>
      change (Pos.compare_cont Eq a b) with (Pos.compare a b) in H;
      destruct (Pos.compare_spec a b)
  end.

Ltac order_cases :=
  simpl; try congruence; intros; cmp_cases; simpl in *; subst;
  try congruence; try lia.

Section FloatOrder.
Local Open Scope float_scope.

Lemma SFleb_trans x y z : SFleb x y = true → SFleb y z = true → SFleb x z = true.
Proof.
  unfold SFleb.
  destruct x as [[]|[]| |[] mx ex], y as [[]|[]| |[] my ey], z as [[]|[]| |[] mz ez];
    order_cases.
Qed.

Lemma SFltb_leb_trans x y z : SFltb x y = true → SFleb y z = true → SFltb x z = true.
Proof.
  unfold SFleb, SFltb.
  destruct x as [[]|[]| |[] mx ex], y as [[]|[]| |[] my ey], z as [[]|[]| |[] mz ez];
    order_cases.
Qed.

Lemma SFleb_ltb_trans x y z : SFleb x y = true → SFltb y z = true → SFltb x z = true.
Proof.
  unfold SFleb, SFltb.
  destruct x as [[]|[]| |[] mx ex], y as [[]|[]| |[] my ey], z as [[]|[]| |[] mz ez];
    order_cases.
Qed.

Lemma SFleb_total x y :
  x ≠ S754_nan → y ≠ S754_nan → SFleb x y = false → SFltb y x = true.
Proof.
  unfold SFleb, SFltb.
  destruct x as [[]|[]| |[] mx ex], y as [[]|[]| |[] my ey]; order_cases.
Qed.

Lemma SFltb_asym x y : SFltb x y = true → SFleb y x = false.
Proof.
  unfold SFleb, SFltb.
  destruct x as [[]|[]| |[] mx ex], y as [[]|[]| |[] my ey]; order_cases.
Qed.

Lemma leb_trans (x y z : float) :
  (x <=? y) = true → (y <=? z) = true → (x <=? z) = true.
Proof. rewrite !FloatAxioms.leb_spec. apply SFleb_trans. Qed.

Lemma ltb_leb_trans (x y z : float) :
  (x <? y) = true → (y <=? z) = true → (x <? z) = true.
Proof. rewrite !FloatAxioms.ltb_spec, FloatAxioms.leb_spec. apply SFltb_leb_trans. Qed.

Lemma leb_ltb_trans (x y z : float) :
  (x <=? y) = true → (y <? z) = true → (x <? z) = true.
Proof. rewrite !FloatAxioms.ltb_spec, FloatAxioms.leb_spec. apply SFleb_ltb_trans. Qed.

Lemma ltb_asym (x y : float) : (x <? y) = true → (y <=? x) = false.
Proof. rewrite FloatAxioms.ltb_spec, FloatAxioms.leb_spec. apply SFltb_asym. Qed.

Lemma leb_total (x y : float) :
  PyFloat.is_nan x = false → PyFloat.is_nan y = false →
  (x <=? y) = false → (y <? x) = true.
Proof.
  intros Hx Hy. rewrite FloatAxioms.ltb_spec, FloatAxioms.leb_spec.
  apply SFleb_total; intros Hn; apply is_nan_spec in Hn; congruence.
Qed.

Lemma leb_not_nan (x y : float) :
  (x <=? y) = true → PyFloat.is_nan x = false ∧ PyFloat.is_nan y = false.
Proof.
  intros H. split.
  - destruct (PyFloat.is_nan x) eqn:Hn; [|done]. by rewrite is_nan_leb_l in H.
  - destruct (PyFloat.is_nan y) eqn:Hn; [|done]. by rewrite is_nan_leb_r in H.
Qed.

Lemma ltb_not_nan (x y : float) :
  (x <? y) = true → PyFloat.is_nan x = false ∧ PyFloat.is_nan y = false.
Proof. intros H. by apply leb_not_nan, ltb_leb. Qed.
End FloatOrder.

Section PredictWithModel.
Import MLService Predictor.
Local Open Scope float_scope.

(** X3. With TensorFlow available and a model file that loads, the service
    uses the model: a prediction between -10 and 10 is returned unchanged,
    one above 10 gives 10, one below -10 gives -10, and a failing inference
    falls back to the heuristic for that call. *)
Theorem predict_lsp_with_model (m : Model) (features : gmap string float) :
  let self := __init__ (mkEnv true (Some (Some m))) in
  match m (feature_array features) with
  | None => predict_lsp self features = _mock_predict features
  | Some p =>
      ((-10 <=? p) = true → (p <=? 10) = true → predict_lsp self features = p)
      ∧ ((10 <? p) = true → predict_lsp self features = 10)
      ∧ ((p <? -10) = true → predict_lsp self features = -10)
  end.
Proof.
  unfold predict_lsp, __init__, _load_model. simpl.
  destruct (m (feature_array features)) as [p|]; [|done].
  rewrite clip_spec. repeat split.
  - intros Hlo Hhi. destruct (leb_not_nan _ _ Hlo) as [_ ->]. by rewrite Hlo, Hhi.
  - intros Hhi. destruct (ltb_not_nan _ _ Hhi) as [_ ->].
    rewrite (ltb_asym _ _ Hhi).
    assert ((-10 <? p) = true) as Hlo by by apply (leb_ltb_trans _ 10).
    by rewrite (ltb_leb _ _ Hlo).
  - intros Hlo. destruct (ltb_not_nan _ _ Hlo) as [-> _].
    by rewrite (ltb_asym _ _ Hlo).
Qed.

Lemma get_insert_ne (features : gmap string float) k x key dflt :
  k ≠ key → get (<[k := x]> features) key dflt = get features key dflt.
Proof. intros Hne. unfold get. by rewrite lookup_insert_ne. Qed.

(** X4. Only the six feature keys are read: adding or changing any other
    key of the mapping changes neither the heuristic's score nor what
    [predict_lsp] returns. *)
Theorem other_keys_ignored (self : Predictor.t) (features : gmap string float) k x :
  k ∉ feature_names →
  _mock_predict (<[k := x]> features) = _mock_predict features
  ∧ feature_array (<[k := x]> features) = feature_array features
  ∧ predict_lsp self (<[k := x]> features) = predict_lsp self features.
Proof.
  intros Hk. unfold feature_names in Hk.
  repeat (apply not_elem_of_cons in Hk as [? Hk]).
  assert (_mock_predict (<[k := x]> features) = _mock_predict features) as Hmock.
  { unfold _mock_predict. by rewrite !get_insert_ne. }
  assert (feature_array (<[k := x]> features) = feature_array features) as Harr.
  { unfold feature_array. by rewrite !get_insert_ne. }
  split; [done|]. split; [done|].
  unfold predict_lsp. by rewrite Hmock, Harr.
Qed.

(** X5. A NaN among the six feature values is not rejected: the heuristic
    then returns 10.0, the highest risk score, because Python's
    [min(10.0, nan)] is [10.0]. *)
Theorem mock_predict_nan_feature (features : gmap string float) key :
  key ∈ feature_names →
  (∃ x, features !! key = Some x ∧ PyFloat.is_nan x = true) →
  _mock_predict features = 10.
Proof.
  intros Hkey (x & Hx & Hnan). unfold feature_names in Hkey.
  unfold _mock_predict. apply clamp_nan.
  repeat (apply elem_of_cons in Hkey as [->|Hkey]); [..|by apply elem_of_nil in Hkey].
  all: match goal with
       | Hx : ?f !! ?k = Some _ |- context [get ?f ?k ?d] =>
           assert (PyFloat.is_nan (get f k d) = true) as Hg
             by (unfold get; by rewrite Hx)
       end.
  (* the depth term: [min(nan / 10_000_000, 1.0)] is the NaN itself *)
  all: try match goal with
       | Hg : PyFloat.is_nan (get ?f "dex_liquidity_depth" ?d) = true |- _ =>
           unfold PyFloat.min;
           rewrite (is_nan_ltb_r 1 (get f "dex_liquidity_depth" d / 10000000))
             by auto with nan
       end.
  all: repeat case_match; auto 20 with nan.
Qed.
End PredictWithModel.

(** ** The labels of the LSP endpoints *)

Ltac order_contra :=
  match goal with
  | H1 : (?a <=? ?s)%float = true, H2 : (?s <? ?b)%float = true |- _ =>
      let H := fresh in
      pose proof (leb_ltb_trans a s b H1 H2) as H; vm_compute in H; discriminate
  | H1 : (?a <=? ?s)%float = true, H2 : PyFloat.is_nan ?s = true |- _ =>
      rewrite (is_nan_leb_r _ _ H2) in H1; discriminate
  | H1 : (?a <? ?s)%float = true, H2 : PyFloat.is_nan ?s = true |- _ =>
      rewrite (is_nan_ltb_r _ _ H2) in H1; discriminate
  | H1 : (?s <? ?a)%float = true, H2 : PyFloat.is_nan ?s = true |- _ =>
      rewrite (is_nan_ltb_l _ _ H2) in H1; discriminate
  end.

Section Endpoint.
Import Endpoint.
Local Open Scope float_scope.

(** X6. The five labels of [_interpret_score] cut the scores into five
    intervals, with bounds 7, 3, -3 and -7 belonging to the upper label; a
    NaN score gets the lowest label, "Very Low Risk". *)
Theorem interpret_score_bands (score : float) :
  (_interpret_score score
     = "High Liquidity Shock Risk - Significant downward pressure expected"
   ↔ (7 <=? score) = true)
  ∧ (_interpret_score score = "Moderate Risk - Some downward pressure possible"
     ↔ (3 <=? score) = true ∧ (score <? 7) = true)
  ∧ (_interpret_score score = "Neutral - Balanced market conditions"
     ↔ (-3 <=? score) = true ∧ (score <? 3) = true)
  ∧ (_interpret_score score
       = "Low Risk - Accumulation phase, upward pressure possible"
     ↔ (-7 <=? score) = true ∧ (score <? -3) = true)
  ∧ (_interpret_score score
       = "Very Low Risk - Strong accumulation, bullish conditions"
     ↔ (score <? -7) = true ∨ PyFloat.is_nan score = true).
Proof.
  unfold _interpret_score.
  destruct (PyFloat.is_nan score) eqn:Hnan.
  - rewrite !(is_nan_leb_r _ _ Hnan), !(is_nan_ltb_l _ _ Hnan).
    repeat split; try done; try (by intros [? ?]); by right.
  - assert (∀ a, PyFloat.is_nan a = false → (a <=? score) = false →
                 (score <? a) = true) as Htot
      by (intros a Ha; by apply leb_total).
    destruct (7 <=? score) eqn:H7; [|apply (Htot 7 eq_refl) in H7];
      [|destruct (3 <=? score) eqn:H3; [|apply (Htot 3 eq_refl) in H3];
        [|destruct (-3 <=? score) eqn:H3'; [|apply (Htot (-3) eq_refl) in H3'];
          [|destruct (-7 <=? score) eqn:H7'; [|apply (Htot (-7) eq_refl) in H7']]]].
    all: repeat split; try done; try discriminate.
    all: try (intros [? ?]); try (intros [?|?]); try order_contra; try discriminate.
    all: try (by left).
    all: try (intros ?; order_contra).
Qed.
End Endpoint.

(** ** Runs without a signal, and runs that stop *)

Section QuietRuns.
Variable float_pow : float → float → float.

Lemma trading_step_no_signal v row (self : LSPBacktester) :
  position v = 0 → no_signal row →
  trading_step v row self
  = (Ok v, mkBacktester (trading_fee self) (slippage self) (trades self)
             (equity_curve self ++ [capital v])).
Proof.
  intros Hp [Hshort Hlong]. unfold trading_step.
  rewrite Hshort, Hlong. simpl.
  rewrite bind_unfold. unfold mret at 1, M_ret at 1.
  rewrite bind_unfold. rewrite Hp. simpl.
  unfold mret at 1, M_ret at 1.
  rewrite bind_unfold. unfold get_self at 1.
  rewrite bind_unfold. reflexivity.
Qed.

Lemma for_each_no_signal rows : ∀ v (self : LSPBacktester),
  position v = 0 → Forall no_signal rows →
  for_each rows trading_step v self
  = (Ok v, mkBacktester (trading_fee self) (slippage self) (trades self)
             (equity_curve self ++ replicate (length rows) (capital v))).
Proof.
  induction rows as [|row rest IH]; intros v self Hp Hrows; simpl.
  - rewrite app_nil_r. by destruct self.
  - apply Forall_cons in Hrows as [Hrow Hrest].
    rewrite (bind_Ok _ _ _ _ _ (trading_step_no_signal v row self Hp Hrow)).
    rewrite IH by done. simpl. by rewrite <- app_assoc.
Qed.

Lemma calculate_metrics_no_trades ic fc data (self : LSPBacktester) :
  divides ic fc → trades self = [] →
  ∃ m, _calculate_metrics float_pow ic fc data self = (Ok m, self)
       ∧ m !! "total_return" = Some (VFloat ((value fc - ic) / ic))
       ∧ m !! "total_trades" = Some (VInt 0)
       ∧ m !! "win_rate" = Some (VFloat 0)
       ∧ m !! "avg_profit_per_trade" = Some (VFloat 0).
Proof.
  intros Hdiv Htrades. unfold _calculate_metrics.
  rewrite bind_unfold, (scalar_truediv_run _ _ _ _ Hdiv).
  rewrite bind_unfold. unfold truediv at 1. simpl.
  rewrite bind_unfold.
  destruct (annualized_run float_pow ic fc
    (PyFloat.of_Z (Frame.days (Frame.timestamp_max data) (Frame.timestamp_min data))
     / 365.25)%float self Hdiv) as [ann Hann].
  rewrite Hann. simpl. rewrite bind_unfold. simpl. rewrite Htrades.
  eexists. split; [reflexivity|].
  repeat split.
  all: try by repeat (rewrite lookup_insert_ne by done); rewrite lookup_insert_eq.
  rewrite lookup_insert_eq. by destruct fc.
Qed.

(** X7. A run in which no row carries a signal (every score is neither at
    least 7 nor at most -7, NaN included) never divides by a price: whatever
    the prices are it records no trade and its equity curve is the initial
    capital repeated once more than there are rows; it reports 0 trades, a
    win rate of 0 and an average profit of 0, unless the initial capital is
    zero, in which case the total return raises [ZeroDivisionError]. *)
Theorem no_signal_run scores prices ic (self : LSPBacktester) :
  let merged := Frame.sort_values (Frame.merge scores prices) in
  let run := run_backtest float_pow scores prices ic self in
  merged ≠ [] → Forall no_signal merged →
  trades run.2 = []
  ∧ equity_curve run.2 = replicate (S (length merged)) ic
  ∧ ((ic =? 0)%float = true → run.1 = Raise ZeroDivisionError)
  ∧ ((ic =? 0)%float = false →
       ∃ m, run.1 = Ok m
            ∧ m !! "total_return" = Some (VFloat ((ic - ic) / ic))
            ∧ m !! "total_trades" = Some (VInt 0)
            ∧ m !! "win_rate" = Some (VFloat 0)
            ∧ m !! "avg_profit_per_trade" = Some (VFloat 0)).
Proof.
  intros merged run Hne Hrows.
  pose proof (for_each_no_signal merged (mkLocals ic 0 0.0%float None)
                (mkBacktester (trading_fee self) (slippage self) [] [ic])
                eq_refl Hrows) as Hloop.
  rewrite <- trading_loop_resets in Hloop. simpl in Hloop.
  pose proof (close_open_position_flat merged (mkLocals ic 0 0.0%float None)
                (mkBacktester (trading_fee self) (slippage self) []
                   (ic :: replicate (length merged) ic)) eq_refl) as Hclose.
  pose proof (run_backtest_steps float_pow _ _ _ _ _ _ _ _ Hne Hloop Hclose) as Hrun.
  fold merged run in Hrun. simpl in Hrun.
  split; [by rewrite Hrun, calculate_metrics_state|].
  split; [by rewrite Hrun, calculate_metrics_state|].
  split.
  - intros Hic. by rewrite Hrun, calculate_metrics_zero_capital.
  - intros Hic.
    destruct (calculate_metrics_no_trades ic (Py ic) merged
                (mkBacktester (trading_fee self) (slippage self) []
                   (ic :: replicate (length merged) ic)) (or_introl Hic) eq_refl)
      as (m & Hm & Hrest).
    exists m. by rewrite Hrun, Hm.
Qed.

(** X8. No run changes the configuration of the instance: after
    [run_backtest], whether it returned or raised, [trading_fee] and
    [slippage] are what they were. *)
Theorem run_backtest_keeps_configuration scores prices ic (self : LSPBacktester) :
  let run := run_backtest float_pow scores prices ic self in
  trading_fee run.2 = trading_fee self ∧ slippage run.2 = slippage self.
Proof. apply keeps_run_backtest. Qed.

(** X9. When the first joined row carries a signal and the entry price it
    gives is zero, the run raises [ZeroDivisionError] on that row: no trade
    is recorded and the equity curve holds the seed only. *)
Theorem zero_entry_price_raises scores prices ic (self : LSPBacktester) row rest :
  let run := run_backtest float_pow scores prices ic self in
  Frame.sort_values (Frame.merge scores prices) = row :: rest →
  ((7.0 <=? Frame.lsp_score row)%float = true
   ∧ (Frame.price row * (1 + slippage self) =? 0)%float = true)
  ∨ ((7.0 <=? Frame.lsp_score row)%float = false
     ∧ (Frame.lsp_score row <=? -7.0)%float = true
     ∧ (Frame.price row * (1 - slippage self) =? 0)%float = true) →
  run = (Raise ZeroDivisionError,
         mkBacktester (trading_fee self) (slippage self) [] [ic]).
Proof.
  intros run Hmerged Hsignal. subst run. unfold run_backtest.
  rewrite Hmerged. rewrite bind_unfold, trading_loop_resets. simpl.
  rewrite bind_unfold. unfold trading_step, truediv. simpl.
  destruct Hsignal as [[Hs Hp]|(Hs & Hl & Hp)].
  - rewrite Hs. simpl. rewrite !bind_unfold. simpl.
    rewrite !bind_unfold. simpl. by rewrite Hp.
  - rewrite Hs, Hl. simpl. rewrite !bind_unfold. simpl.
    rewrite !bind_unfold. simpl. by rewrite Hp.
Qed.
End QuietRuns.

(** ** The further properties at concrete inputs *)

Module MoreExamples.
Import Frame Sample MLService.

Lemma predict_lsp_without_model_witness :
  Predictor.model_file (Predictor.mkEnv true None) = None
  ∧ ∀ features : gmap string float,
      Predictor.predict_lsp (Predictor.__init__ (Predictor.mkEnv true None)) features
      = _mock_predict features.
Proof.
  split; [reflexivity|]. intros features.
  exact (proj1 (predict_lsp_without_model (Predictor.mkEnv true None) features
                  (or_intror (or_introl eq_refl)))).
Defined.

Lemma other_keys_ignored_witness :
  ("volume" ∉ feature_names)
  ∧ _mock_predict (<["volume" := 5%float]> ({[ "sopr" := 1.2%float ]}))
    = _mock_predict ({[ "sopr" := 1.2%float ]}).
Proof.
  assert ("volume" ∉ feature_names) as Hk.
  { unfold feature_names. repeat (apply not_elem_of_cons; split; [done|]).
    apply not_elem_of_nil. }
  split; [done|].
  exact (proj1 (other_keys_ignored (Predictor.mk None false)
                  {[ "sopr" := 1.2%float ]} "volume" 5%float Hk)).
Defined.

Lemma mock_predict_nan_feature_witness :
  "sopr" ∈ feature_names
  ∧ _mock_predict {[ "sopr" := nan ]} = 10%float.
Proof.
  assert ("sopr" ∈ feature_names) as Hk.
  { unfold feature_names. apply elem_of_cons. right. apply elem_of_cons. by left. }
  split; [done|].
  apply (mock_predict_nan_feature {[ "sopr" := nan ]} "sopr" Hk).
  exists nan. split; [apply lookup_singleton_eq|reflexivity].
Defined.

Lemma no_signal_run_witness :
  let scores := [mkScore (day 0) 1.5 "BTC"; mkScore (day 1) (-2.0) "BTC"] in
  let merged := sort_values (merge scores prices_from_zero) in
  merged ≠ []
  ∧ Forall no_signal merged
  ∧ ∀ float_pow,
      let run := run_backtest float_pow scores prices_from_zero 100000
                   (mkBacktester 0.001 0.0005 [] []) in
      trades run.2 = []
      ∧ equity_curve run.2 = [100000; 100000; 100000]%float.
Proof.
  intros scores merged.
  assert (merged ≠ []) as Hne by done.
  assert (Forall no_signal merged) as Hrows by (by repeat constructor).
  do 2 (split; [done|]). intros float_pow run.
  destruct (no_signal_run float_pow scores prices_from_zero 100000
              (mkBacktester 0.001 0.0005 [] []) Hne Hrows)
    as (Htrades & Hequity & _).
  split; [exact Htrades|exact Hequity].
Defined.

Lemma zero_entry_price_raises_witness :
  sort_values (merge scores_sell prices_from_zero)
  = [mkRow (day 0) 8.0 "BTC" 0; mkRow (day 1) 0.0 "BTC" 90]
  ∧ ∀ float_pow,
      run_backtest float_pow scores_sell prices_from_zero 100000
        (mkBacktester 0.001 0.0005 [] [])
      = (Raise ZeroDivisionError, mkBacktester 0.001 0.0005 [] [100000%float]).
Proof.
  assert (sort_values (merge scores_sell prices_from_zero)
          = [mkRow (day 0) 8.0 "BTC" 0; mkRow (day 1) 0.0 "BTC" 90])
    as Hmerged by reflexivity.
  split; [done|]. intros float_pow.
  apply (zero_entry_price_raises float_pow scores_sell prices_from_zero 100000
           (mkBacktester 0.001 0.0005 [] []) _ _ Hmerged).
  left. by split.
Defined.
End MoreExamples.
